(** * pydatras: the DATRAS download client

    A shallow embedding of [pydatras/__init__.py] (class [DATRASClient]) and
    the properties of its fetch methods: the download limit, the iteration
    over the cartesian product of the filters, the best-effort aggregation of
    the responses and the string cleanup of the aggregated table.

    Python's effects are explicit: a method is a function of a [World]
    (the state of the remote end, the trace of remote requests and responses,
    and what was printed) that yields a result or an exception and the next
    world. *)

From Stdlib Require Import ZArith List String Ascii Bool Lia DecimalString.
Import ListNotations.
Open Scope Z_scope.

(** ** Python values passed as filters *)

(** The arguments [survey], [year] and [quarter]: any Python value.  Only
    whether the value is a [list] matters to the client. *)
#[warnings="-register-all"]
Inductive pyval : Type :=
| PyInt (z : Z)
| PyStr (s : string)
| PyNone
| PyList (l : list pyval).

(** [isinstance(v, list)] *)
Definition isinstance_list (v : pyval) : bool :=
  match v with
  | PyList _ => true
  | _ => false
  end.

(** [if not isinstance(v, list): v = [v]] *)
Definition listify (v : pyval) : list pyval :=
  if negb (isinstance_list v) then [v]
  else match v with
       | PyList l => l
       | _ => [v]
       end.

(** [itertools.product(a, b, c)]: the rightmost argument varies fastest. *)
Definition product3 {A B C : Type} (a : list A) (b : list B) (c : list C)
  : list (A * B * C) :=
  flat_map (fun x => flat_map (fun y => map (fun z => (x, y, z)) c) b) a.

(** [itertools.product(a, b)] *)
Definition product2 {A B : Type} (a : list A) (b : list B) : list (A * B) :=
  flat_map (fun x => map (fun y => (x, y)) b) a.

(** ** Tables *)

(** A value held in a cell of a table.  [CNaN] is pandas' missing value;
    [CFloat m e] stands for the finite float [m * 2 ^ e]. *)
Inductive cell : Type :=
| CStr (s : string)
| CInt (z : Z)
| CFloat (m e : Z)
| CNone
| CNaN.

Definition cell_eqb (a b : cell) : bool :=
  match a, b with
  | CStr s, CStr t => String.eqb s t
  | CInt x, CInt y => Z.eqb x y
  | CFloat m e, CFloat m' e' => Z.eqb m m' && Z.eqb e e'
  | CNone, CNone => true
  | CNaN, CNaN => true
  | _, _ => false
  end.

(** One row as [serialize_object] gives it: an ordered dictionary from field
    names to values. *)
Definition record : Type := list (string * cell).

(** A [pandas.DataFrame], kept by rows, each row with the values pandas
    holds for it.  A field that a row lacks reads as NaN, the way pandas
    fills it when frames with different columns are put together.  The class
    of the frame ([DatrasHHData], [DatrasHLData] or plain [DataFrame]) is not
    tracked. *)
Definition DataFrame : Type := list record.

Fixpoint lookup (c : string) (r : record) : option cell :=
  match r with
  | [] => None
  | (k, v) :: r' => if String.eqb k c then Some v else lookup c r'
  end.

Definition cell_at (c : string) (r : record) : cell :=
  match lookup c r with
  | Some v => v
  | None => CNaN
  end.

(** [r[c] = v] on one row *)
Fixpoint row_set (c : string) (v : cell) (r : record) : record :=
  match r with
  | [] => [(c, v)]
  | (k, x) :: r' => if String.eqb k c then (k, v) :: r' else (k, x) :: row_set c v r'
  end.

Definition add_name (acc : list string) (c : string) : list string :=
  if existsb (String.eqb c) acc then acc else acc ++ [c].

(** [df.columns]: the union of the fields of the rows, each once. *)
Definition columns (df : DataFrame) : list string :=
  fold_left (fun acc r => fold_left add_name (map fst r) acc) df [].

(** [df[c]]: the values of one column, a [pandas.Series]. *)
Definition column (df : DataFrame) (c : string) : list cell :=
  map (cell_at c) df.

(** [pd.DataFrame()] *)
Definition empty_frame : DataFrame := [].

(** *** What pandas makes of the values it is given

    When pandas builds a frame it may change how a value is held: an integer
    may become the float of the same value (exactly, up to 2^53), and [None]
    may become NaN.  Nothing else changes. *)
Definition float_of (z m e : Z) : Prop :=
  if 0 <=? e then z = m * 2 ^ e else m = z * 2 ^ (- e).

Definition coerced (v v' : cell) : Prop :=
  v' = v \/
  (v = CNone /\ v' = CNaN) \/
  (exists z m e, v = CInt z /\ v' = CFloat m e /\
                 (Z.abs z <= 2 ^ 53 -> float_of z m e)).

(** [frame] holds the rows [rows], one row for each and in the same order,
    every value as it was or coerced. *)
Definition held_as (rows frame : DataFrame) : Prop :=
  Forall2 (fun r r' => forall c, coerced (cell_at c r) (cell_at c r')) rows frame.

Fixpoint held_as_itself (rows : DataFrame) : held_as rows rows :=
  match rows with
  | [] => Forall2_nil _
  | r :: rows' =>
      Forall2_cons r r (fun c => or_introl eq_refl) (held_as_itself rows')
  end.

(** [frame] has a column for every field of the rows [rows], and no
    other. *)
Definition same_columns (rows frame : DataFrame) : Prop :=
  forall c, In c (columns rows) <-> In c (columns frame).

(** ** Exceptions *)

Inductive exn : Type :=
| RemoteError
| IndexError
| AttributeError (attr : string).

Inductive result (A : Type) : Type :=
| Ok (a : A)
| Raise (e : exn).
Arguments Ok {A} a.
Arguments Raise {A} e.

(** ** [str.strip] *)

(** Python's whitespace among the code points below 256 (a character of a
    [string] stands for one code point). *)
Definition py_isspace (a : ascii) : bool :=
  let n := nat_of_ascii a in
  ((9 <=? n) && (n <=? 13) || (28 <=? n) && (n <=? 32)
   || (n =? 133) || (n =? 160))%nat.

Fixpoint lstrip (s : string) : string :=
  match s with
  | EmptyString => EmptyString
  | String a s' => if py_isspace a then lstrip s' else s
  end.

Fixpoint rstrip (s : string) : string :=
  match s with
  | EmptyString => EmptyString
  | String a s' =>
      match rstrip s' with
      | EmptyString => if py_isspace a then EmptyString else String a EmptyString
      | t => String a t
      end
  end.

(** [s.strip()] *)
Definition strip (s : string) : string := rstrip (lstrip s).

(** One element of [Series.str.strip()]: a string is stripped, a missing
    value ([None], NaN) stays as it is, anything else gives NaN. *)
Definition strip_cell (v : cell) : cell :=
  match v with
  | CStr s => CStr (strip s)
  | CNone => CNone
  | _ => CNaN
  end.

(** What the client's behaviour takes from pandas and is not fixed by the
    package (it asks for pandas 0.21 or later):
    - whether a column with these values is stored with dtype [object];
    - whether [DataFrame.append] raises [IndexError] on an empty list of
      rows (it looks at [other[0]] before pandas 1.0);
    - whether the [.str] accessor of an object column with these values
      raises [AttributeError] (from pandas 0.25 on it does when the column
      holds values none of which is a string);
    - the frame [df.append(rows)] gives, and the frame [pd.DataFrame(rows)]
      gives: the rows in order, every value as it was or coerced, with a
      column for every field of the rows;
    - [pd.merge(left, right, on=key)]. *)
Class PandasDtypes : Type := {
  object_dtype : list cell -> bool;
  append_rejects_empty : bool;
  str_rejects : list cell -> bool;
  appended : DataFrame -> list record -> DataFrame;
  appended_held : forall df rows, held_as (df ++ rows) (appended df rows);
  appended_columns : forall df rows, same_columns (df ++ rows) (appended df rows);
  constructed : list record -> DataFrame;
  constructed_held : forall rows, held_as rows (constructed rows);
  constructed_columns : forall rows, same_columns rows (constructed rows);
  merged : DataFrame -> DataFrame -> string -> result DataFrame
}.

Section Cleaning.
Context `{PandasDtypes}.

(** [df.select_dtypes(['object'])]: the object columns, each with its
    values. *)
Definition select_dtypes_object (df : DataFrame) : list (string * list cell) :=
  map (fun c => (c, column df c))
      (filter (fun c => object_dtype (column df c)) (columns df)).

(** [x.str]: the string accessor of a column, or [AttributeError]. *)
Definition str_accessor (x : list cell) : result (list cell) :=
  if str_rejects x then Raise (AttributeError "str") else Ok x.

(** [x.str.strip()] *)
Definition str_strip (x : list cell) : result (list cell) :=
  match str_accessor x with
  | Ok values => Ok (map strip_cell values)
  | Raise e => Raise e
  end.

(** [frame.apply(f)]: [f] on every column, in order; the first exception
    ends it. *)
Fixpoint apply (f : list cell -> result (list cell)) (frame : list (string * list cell))
  : result (list (string * list cell)) :=
  match frame with
  | [] => Ok []
  | cx :: frame' =>
      match f (snd cx) with
      | Raise e => Raise e
      | Ok y =>
          match apply f frame' with
          | Raise e => Raise e
          | Ok rest => Ok ((fst cx, y) :: rest)
          end
      end
  end.

(** [df[c] = values] *)
Fixpoint set_column (df : DataFrame) (c : string) (values : list cell) : DataFrame :=
  match df, values with
  | r :: df', v :: values' => row_set c v r :: set_column df' c values'
  | _, _ => df
  end.

(** [df[frame.columns] = frame] *)
Definition setitem (df : DataFrame) (frame : list (string * list cell)) : DataFrame :=
  fold_left (fun d cv => set_column d (fst cv) (snd cv)) frame df.

(** The block after [# Cleaning the dataframe]:
    [string_fields = df.select_dtypes(['object'])],
    [df[string_fields.columns] = string_fields.apply(lambda x: x.str.strip())].
    It is outside any [try], so what [x.str] raises reaches the caller.
    [df.reset_index()] returns a new frame that is dropped, so it does
    nothing. *)
Definition clean_strings (df : DataFrame) : result DataFrame :=
  let string_fields := select_dtypes_object df in
  match apply str_strip string_fields with
  | Raise e => Raise e
  | Ok stripped_fields => Ok (setitem df stripped_fields)
  end.
End Cleaning.

(** ** Effects: remote calls, printing, exceptions *)

(** The operations of the DATRAS web service the client uses, with their
    arguments. *)
Inductive datras_call : Type :=
| DatrasGetHHdata (survey year quarter : pyval)
| DatrasGetHLdata (survey year quarter : pyval)
| DatrasGetSurveyList
| DatrasGetSurveyYearList (survey : pyval)
| DatrasGetSurveyYearQuarterList (survey year : pyval).

Inductive remote_call : Type :=
| Datras (c : datras_call)
| Worms (code : cell).  (* [getAphiaNameByID(code)] *)

(** What a remote call comes back with: an exception, [None], or data. *)
Inductive reply (A : Type) : Type :=
| Fault
| ReturnedNone
| Returned (data : A).
Arguments Fault {A}.
Arguments ReturnedNone {A}.
Arguments Returned {A} data.

Inductive completion : Type := Failed | CameBackNone | CameBack.

Definition completion_of {A : Type} (r : reply A) : completion :=
  match r with
  | Fault => Failed
  | ReturnedNone => CameBackNone
  | Returned _ => CameBack
  end.

(** What crosses the wire, in the order it happens. *)
Inductive event : Type :=
| Request (c : remote_call)
| Response (c : completion).

(** What [print] wrote: a line of text, or the values handed to [print]
    when their rendering is numpy's. *)
Inductive printed : Type :=
| Line (s : string)
| Values (vs : list cell).

(** ["%i" % n] *)
Definition format_i (n : Z) : string := NilZero.string_of_int (Z.to_int n).

Section Client.
Context {ServerState : Type}.

Record World : Type := mkWorld {
  server : ServerState;
  trace : list event;
  stdout : list printed
}.

(** A zeep [Client(url).service]: a call takes the remote end from one
    state to the next and comes back with rows (the response as
    [serialize_object] gives it), [None] or an exception. *)
Definition DatrasService : Type :=
  ServerState -> datras_call -> reply (list record) * ServerState.
Definition WormsService : Type :=
  ServerState -> cell -> reply string * ServerState.

Definition M (A : Type) : Type := World -> result A * World.

Definition ret {A : Type} (a : A) : M A := fun w => (Ok a, w).

Definition bind {A B : Type} (m : M A) (k : A -> M B) : M B :=
  fun w =>
    match m w with
    | (Ok a, w') => k a w'
    | (Raise e, w') => (Raise e, w')
    end.

Definition raise {A : Type} (e : exn) : M A := fun w => (Raise e, w).

(** A computation without effects that returns or raises. *)
Definition lift {A : Type} (r : result A) : M A := fun w => (r, w).

(** [try: body / except: handler] (a bare [except] catches everything) *)
Definition try_except {A : Type} (body : M A) (handler : M A) : M A :=
  fun w =>
    match body w with
    | (Ok a, w') => (Ok a, w')
    | (Raise _, w') => handler w'
    end.

Definition print (p : printed) : M unit :=
  fun w => (Ok tt, mkWorld (server w) (trace w) (stdout w ++ [p])).

(** A blocking call of a remote operation: the request goes out, the
    remote end answers, and only then does the caller go on. *)
Definition remote {A : Type} (target : remote_call)
           (answer : ServerState -> reply A * ServerState) : M (option A) :=
  fun w =>
    let (r, s') := answer (server w) in
    let w' := mkWorld s' (trace w ++ [Request target; Response (completion_of r)])
                      (stdout w) in
    match r with
    | Fault => (Raise RemoteError, w')
    | ReturnedNone => (Ok None, w')
    | Returned d => (Ok (Some d), w')
    end.

Definition call_datras (service : DatrasService) (c : datras_call)
  : M (option (list record)) :=
  remote (Datras c) (fun s => service s c).

Definition call_worms (service : WormsService) (code : cell) : M (option string) :=
  remote (Worms code) (fun s => service s code).

(** [for x in xs: body], threading the variables the body assigns. *)
Fixpoint for_each {A S : Type} (xs : list A) (body : A -> S -> M S) (s : S) : M S :=
  match xs with
  | [] => ret s
  | x :: xs' => bind (body x s) (for_each xs' body)
  end.
End Client.

Arguments World : clear implicits.
Arguments DatrasService : clear implicits.
Arguments WormsService : clear implicits.

Declare Scope py_scope.
Delimit Scope py_scope with py.
Notation "x <- m ;; k" := (bind m (fun x => k))
  (at level 61, m at next level, right associativity) : py_scope.
Notation "m ;; k" := (bind m (fun _ => k))
  (at level 61, right associativity) : py_scope.
Notation "' pat <- m ;; k" := (bind m (fun x => match x with pat => k end))
  (at level 61, pat pattern, m at next level, right associativity) : py_scope.

(** ** The client *)

Section Methods.
Context {ServerState : Type} `{PandasDtypes}.
Local Open Scope py_scope.
Local Open Scope string_scope.

Local Abbreviation M := (@M ServerState).

(** The attributes [__init__] sets; [None] for a web service client whose
    construction raised. *)
Record DATRASClient : Type := mkClient {
  download_limits : Z;
  datras_client : option (DatrasService ServerState);
  worms_client : option (WormsService ServerState)
}.

(** [setDatrasClient]; [Client] is zeep's constructor, which raises when the
    service description cannot be fetched. *)
Definition setDatrasClient (Client : string -> result (DatrasService ServerState))
           (self : DATRASClient) (url : string) : DATRASClient :=
  match Client url with
  | Ok c => mkClient (download_limits self) (Some c) (worms_client self)
  | Raise _ => mkClient (download_limits self) None (worms_client self)
  end.

Definition setWormsClient (Client : string -> result (WormsService ServerState))
           (self : DATRASClient) (url : string) : DATRASClient :=
  match Client url with
  | Ok c => mkClient (download_limits self) (datras_client self) (Some c)
  | Raise _ => mkClient (download_limits self) (datras_client self) None
  end.

(** [__init__]: the limit, then the two clients. *)
Definition init (DatrasClient : string -> result (DatrasService ServerState))
           (WormsClient : string -> result (WormsService ServerState))
           (datras_url worms_url : string) (download_limits : Z) : DATRASClient :=
  let self := mkClient download_limits None None in
  let self := setDatrasClient DatrasClient self datras_url in
  setWormsClient WormsClient self worms_url.

(** [df.append(serialize_object(data))] for the list of rows of a
    response. *)
Definition append_rows (df : DataFrame) (rows : list record) : M DataFrame :=
  match rows with
  | [] => if append_rejects_empty then raise IndexError else ret (appended df rows)
  | _ => ret (appended df rows)
  end.

(** The body of the download loops:
    [try: data = call; if data is not None: append, downloaded += 1]
    [except: pass]. *)
Definition fetch (call : M (option (list record))) (acc : DataFrame * Z)
  : M (DataFrame * Z) :=
  let (downloaded_data, downloaded) := acc in
  try_except
    (data <- call ;;
     match data with
     | Some rows =>
         downloaded_data <- append_rows downloaded_data rows ;;
         ret (downloaded_data, downloaded + 1)
     | None => ret (downloaded_data, downloaded)
     end)
    (ret (downloaded_data, downloaded)).

Definition limited_line (limits : Z) : printed :=
  Line ("Data download is limited to " ++ format_i limits ++ " datasets.").

Definition exiting_line (datasets_number : Z) : printed :=
  Line ("Your are trying to download " ++ format_i datasets_number
        ++ " datasets. Exiting").

Definition count_line (downloaded datasets_number : Z) (what : string) : printed :=
  Line (format_i downloaded ++ " out of " ++ format_i datasets_number ++ what).

Definition getHHdata (self : DATRASClient) (survey year quarter : pyval)
           (limit_download : bool) : M (option DataFrame) :=
  match datras_client self with
  | None => print (Line "DATRAS client not set") ;; ret None
  | Some service =>
      let survey := listify survey in
      let year := listify year in
      let quarter := listify quarter in
      let datasets := product3 survey year quarter in
      let datasets_number := Z.of_nat (List.length datasets) in
      if limit_download && (datasets_number >? download_limits self) then
        print (limited_line (download_limits self)) ;;
        print (exiting_line datasets_number) ;;
        ret None
      else
        '(downloaded_data, downloaded) <-
          for_each datasets
            (fun dataset =>
               let '(s, y, q) := dataset in
               fetch (call_datras service (DatrasGetHHdata s y q)))
            (empty_frame, 0) ;;
        downloaded_data <- lift (clean_strings downloaded_data) ;;
        print (count_line downloaded datasets_number " Datasets downloaded") ;;
        ret (Some downloaded_data)
  end.

(** [Series.unique()]: the distinct values in order of first appearance. *)
Definition unique (x : list cell) : list cell :=
  fold_left (fun acc v => if existsb (cell_eqb v) acc then acc else (acc ++ [v])%list) x [].

(** [df.name]: the column of that name, or [AttributeError]. *)
Definition getattr_column (df : DataFrame) (name : string) : M (list cell) :=
  if existsb (String.eqb name) (columns df) then ret (column df name)
  else raise (AttributeError name).

(** The species lookup of [getHLdata]: one WoRMS call per code, ['No data']
    when the call raises. *)
Definition lookup_names (worms : WormsService ServerState) (codes : list cell)
  : M DataFrame :=
  for_each codes
    (fun code names =>
       name <- try_except
                 (r <- call_worms worms code ;;
                  ret (match r with Some n => CStr n | None => CNone end))
                 (ret (CStr "No data")) ;;
       print (Values [code; name]) ;;
       ret (appended names [[("Valid_Aphia", code); ("Species_Name", name)]]))
    empty_frame.

(** The block of [getHLdata] under [if translate_sps:]. *)
Definition translate_species (self : DATRASClient) (translate_sps : bool)
           (downloaded_data : DataFrame) : M DataFrame :=
  if translate_sps then
    match worms_client self with
    | None =>
        print (Line "WORMS web service not available. Cannot resolve Aphia codes into species") ;;
        ret downloaded_data
    | Some worms =>
        valid_aphia <- getattr_column downloaded_data "Valid_Aphia" ;;
        let codes := unique valid_aphia in
        print (Values codes) ;;
        names <- lookup_names worms codes ;;
        lift (merged downloaded_data names "Valid_Aphia")
    end
  else ret downloaded_data.

Definition getHLdata (self : DATRASClient) (survey year quarter : pyval)
           (translate_sps limit_download : bool) : M (option DataFrame) :=
  match datras_client self with
  | None => print (Line "DATRAS client not set") ;; ret None
  | Some service =>
      let survey := listify survey in
      let year := listify year in
      let quarter := listify quarter in
      let datasets := product3 survey year quarter in
      let datasets_number := Z.of_nat (List.length datasets) in
      if limit_download && (datasets_number >? download_limits self) then
        print (limited_line (download_limits self)) ;;
        print (exiting_line datasets_number) ;;
        ret None
      else
        '(downloaded_data, downloaded) <-
          for_each datasets
            (fun dataset =>
               let '(s, y, q) := dataset in
               fetch (call_datras service (DatrasGetHLdata s y q)))
            (empty_frame, 0) ;;
        print (count_line downloaded datasets_number " Datasets downloaded") ;;
        downloaded_data <- translate_species self translate_sps downloaded_data ;;
        downloaded_data <- lift (clean_strings downloaded_data) ;;
        ret (Some downloaded_data)
  end.

Definition getSurveyList (self : DATRASClient) : M (option DataFrame) :=
  match datras_client self with
  | None => print (Line "DATRAS client not set") ;; ret None
  | Some service =>
      got <- try_except
               (data <- call_datras service DatrasGetSurveyList ;;
                (* [pd.DataFrame(None)] is the empty frame *)
                ret (Some (match data with
                           | Some rows => constructed rows
                           | None => empty_frame
                           end)))
               (print (Line "Cannot download survey list") ;; ret None) ;;
      match got with
      | None => ret None
      | Some downloaded_data =>
          downloaded_data <- lift (clean_strings downloaded_data) ;;
          print (Line "Survey list downloaded") ;;
          ret (Some downloaded_data)
      end
  end.

Definition getSurveyYearList (self : DATRASClient) (survey : pyval)
  : M (option DataFrame) :=
  match datras_client self with
  | None => print (Line "DATRAS client not set") ;; ret None
  | Some service =>
      let survey := listify survey in
      let datasets_number := Z.of_nat (List.length survey) in
      '(downloaded_data, downloaded) <-
        for_each survey
          (fun srv => fetch (call_datras service (DatrasGetSurveyYearList srv)))
          (empty_frame, 0) ;;
      downloaded_data <- lift (clean_strings downloaded_data) ;;
      print (count_line downloaded datasets_number " surveys downloaded") ;;
      ret (Some downloaded_data)
  end.

Definition getSurveyYearQuarterList (self : DATRASClient) (survey year : pyval)
           (limit_download : bool) : M (option DataFrame) :=
  match datras_client self with
  | None => print (Line "DATRAS client not set") ;; ret None
  | Some service =>
      let survey := listify survey in
      let year := listify year in
      let datasets := product2 survey year in
      let datasets_number := Z.of_nat (List.length datasets) in
      if limit_download && (datasets_number >? download_limits self) then
        print (limited_line (download_limits self)) ;;
        print (exiting_line datasets_number) ;;
        ret None
      else
        '(downloaded_data, downloaded) <-
          for_each datasets
            (fun dataset =>
               let '(s, y) := dataset in
               fetch (call_datras service (DatrasGetSurveyYearQuarterList s y)))
            (empty_frame, 0) ;;
        downloaded_data <- lift (clean_strings downloaded_data) ;;
        print (count_line downloaded datasets_number " Datasets downloaded") ;;
        ret (Some downloaded_data)
  end.
End Methods.

Arguments DATRASClient : clear implicits.

(** ** Vocabulary of the properties *)

Section Vocabulary.
Context {ServerState : Type} `{PandasDtypes}.

(** The calls of a list, each put to the service in the state the
    previous one left, with what came back. *)
Fixpoint exchanges (service : DatrasService ServerState) (calls : list datras_call)
         (s : ServerState) : list (datras_call * reply (list record)) :=
  match calls with
  | [] => []
  | c :: calls' =>
      let (r, s') := service s c in (c, r) :: exchanges service calls' s'
  end.

Fixpoint server_after (service : DatrasService ServerState) (calls : list datras_call)
         (s : ServerState) : ServerState :=
  match calls with
  | [] => s
  | c :: calls' => server_after service calls' (snd (service s c))
  end.

(** The events of a run of exchanges. *)
Definition wire (xs : list (datras_call * reply (list record))) : list event :=
  flat_map (fun x => [Request (Datras (fst x)); Response (completion_of (snd x))]) xs.

Definition rows_of (r : reply (list record)) : list record :=
  match r with
  | Returned rows => rows
  | _ => []
  end.

(** The responses of the calls that succeeded with a result that is not
    [None], in the order of the calls. *)
Definition responses (xs : list (datras_call * reply (list record)))
  : list (list record) :=
  flat_map (fun x => match snd x with
                     | Returned rows => [rows]
                     | _ => []
                     end) xs.

(** Whether the loop counts a call as downloaded: it came back with rows
    that [append] took. *)
Definition counted (r : reply (list record)) : bool :=
  match r with
  | Returned [] => negb append_rejects_empty
  | Returned _ => true
  | _ => false
  end.

(** The frame the loop has after the exchanges [xs], from the frame [df]:
    the rows of every counted call appended, in the order of the calls. *)
Fixpoint accumulated (df : DataFrame) (xs : list (datras_call * reply (list record)))
  : DataFrame :=
  match xs with
  | [] => df
  | x :: xs' =>
      accumulated (if counted (snd x) then appended df (rows_of (snd x)) else df) xs'
  end.

(** The frame of a download, before the cleanup. *)
Definition received (xs : list (datras_call * reply (list record))) : DataFrame :=
  accumulated empty_frame xs.

Definition successes (xs : list (datras_call * reply (list record))) : Z :=
  Z.of_nat (List.length (filter (fun x => counted (snd x)) xs)).

(** The requests of a trace, in order. *)
Definition requests (t : list event) : list remote_call :=
  flat_map (fun e => match e with Request c => [c] | Response _ => [] end) t.

(** A trace in which every request is answered before anything else
    happens. *)
Inductive paired : list event -> Prop :=
| paired_nil : paired []
| paired_cons c r t : paired t -> paired (Request c :: Response r :: t).

(** The calls [getHHdata], [getHLdata] and [getSurveyYearQuarterList] make
    for their filters. *)
Definition hh_calls (survey year quarter : pyval) : list datras_call :=
  map (fun d => let '(s, y, q) := d in DatrasGetHHdata s y q)
      (product3 (listify survey) (listify year) (listify quarter)).

Definition hl_calls (survey year quarter : pyval) : list datras_call :=
  map (fun d => let '(s, y, q) := d in DatrasGetHLdata s y q)
      (product3 (listify survey) (listify year) (listify quarter)).

Definition syq_calls (survey year : pyval) : list datras_call :=
  map (fun d => let '(s, y) := d in DatrasGetSurveyYearQuarterList s y)
      (product2 (listify survey) (listify year)).

Definition sy_calls (survey : pyval) : list datras_call :=
  map DatrasGetSurveyYearList (listify survey).

(** The limit check of the methods, on the number of datasets. *)
Definition over_limit (limit_download : bool) (datasets_number limits : Z) : bool :=
  limit_download && (datasets_number >? limits).

(** The method went through with the download: it put every call to the
    service, in order, and did not come back with [None]. *)
Definition downloads (service : DatrasService ServerState) (calls : list datras_call)
           (w : World ServerState)
           (out : result (option DataFrame) * World ServerState) : Prop :=
  fst out <> Ok None /\
  exists more, trace (snd out) = trace w ++ wire (exchanges service calls (server w)) ++ more.

(** The method gave up before any remote call. *)
Definition refuses (w : World ServerState)
           (out : result (option DataFrame) * World ServerState) : Prop :=
  fst out = Ok None /\ trace (snd out) = trace w /\ server (snd out) = server w /\
  exists lines, stdout (snd out) = stdout w ++ lines.

(** The world after a refused download. *)
Definition refused_world (self : DATRASClient ServerState) (n : Z)
           (w : World ServerState) : World ServerState :=
  mkWorld (server w) (trace w)
          ((stdout w ++ [limited_line (download_limits self)]) ++ [exiting_line n]).

(** The world after the loop over [calls], before the count is printed. *)
Definition fetched_world (service : DatrasService ServerState)
           (calls : list datras_call) (w : World ServerState) : World ServerState :=
  mkWorld (server_after service calls (server w))
          (trace w ++ wire (exchanges service calls (server w))) (stdout w).

(** A computation that only adds answered requests to the trace and lines
    to what was printed. *)
Definition orderly {A : Type} (m : M A) : Prop :=
  forall w : World ServerState,
  exists emitted lines,
    trace (snd (m w)) = trace w ++ emitted /\
    paired emitted /\
    stdout (snd (m w)) = stdout w ++ lines.
End Vocabulary.

(** Whitespace at the ends of a string. *)
Fixpoint all_space (s : string) : bool :=
  match s with
  | EmptyString => true
  | String a s' => py_isspace a && all_space s'
  end.

Definition head_space (s : string) : bool :=
  match s with
  | EmptyString => false
  | String a _ => py_isspace a
  end.

Fixpoint last_space (s : string) : bool :=
  match s with
  | EmptyString => false
  | String a EmptyString => py_isspace a
  | String _ s' => last_space s'
  end.

(** [t] is [s] without its leading and trailing whitespace. *)
Definition stripped (s t : string) : Prop :=
  (exists pre post, s = (pre ++ t ++ post)%string /\
                    all_space pre = true /\ all_space post = true) /\
  head_space t = false /\ last_space t = false.

(** Row [r'] is row [r] with the columns [done] put through [strip_cell]. *)
Definition stripped_in (done : list string) (r r' : record) : Prop :=
  forall c, cell_at c r' = if existsb (String.eqb c) done
                           then strip_cell (cell_at c r)
                           else cell_at c r.

(** [df] is [agg] with every string of an object column stripped and the
    other columns as they were, row by row.  (In an object column a missing
    value stays as it is, and what is neither a string nor missing reads NaN
    afterwards, see [strip_cell].) *)
Definition cleaned `{PandasDtypes} (agg df : DataFrame) : Prop :=
  Forall2 (fun r r' =>
             forall c,
               (object_dtype (column agg c) = true ->
                cell_at c r' = strip_cell (cell_at c r)) /\
               (object_dtype (column agg c) = false ->
                cell_at c r' = cell_at c r))
          agg df.

(** ** Vocabulary of the species translation *)

Section TranslationVocabulary.
Context {ServerState : Type} `{PandasDtypes}.
Local Open Scope string_scope.

(** The WoRMS lookups of a list of codes, each put to the service in the
    state the previous one left, with what came back. *)
Fixpoint worms_exchanges (worms : WormsService ServerState) (codes : list cell)
         (s : ServerState) : list (cell * reply string) :=
  match codes with
  | [] => []
  | code :: codes' =>
      let (r, s') := worms s code in (code, r) :: worms_exchanges worms codes' s'
  end.

Fixpoint worms_after (worms : WormsService ServerState) (codes : list cell)
         (s : ServerState) : ServerState :=
  match codes with
  | [] => s
  | code :: codes' => worms_after worms codes' (snd (worms s code))
  end.

(** The name [getHLdata] keeps for a lookup: the name that came back,
    [None] as it came back, ['No data'] when the lookup raised. *)
Definition species_name (r : reply string) : cell :=
  match r with
  | Returned n => CStr n
  | ReturnedNone => CNone
  | Fault => CStr "No data"
  end.

(** The row of [names] for one lookup. *)
Definition name_row (x : cell * reply string) : record :=
  [("Valid_Aphia", fst x); ("Species_Name", species_name (snd x))].

Definition worms_wire (xs : list (cell * reply string)) : list event :=
  flat_map (fun x => [Request (Worms (fst x)); Response (completion_of (snd x))]) xs.

Definition worms_lines (xs : list (cell * reply string)) : list printed :=
  map (fun x => Values [fst x; species_name (snd x)]) xs.

(** The frame [names] after the lookups [xs]: one row appended for each. *)
Definition names_frame (xs : list (cell * reply string)) : DataFrame :=
  fold_left (fun names x => appended names [name_row x]) xs empty_frame.
End TranslationVocabulary.

(** What the count line of a download that returned a table tells: the
    last thing [out] printed is the line 'k out of n' for the [n] calls,
    with [k] between 0 and [n]; the table is empty when [k] is 0, and every
    call came back with rows when [k] is [n]. *)
Definition reports_count {ServerState : Type} (service : DatrasService ServerState)
           (calls : list datras_call) (what : string) (w : World ServerState)
           (out : result (option DataFrame) * World ServerState) : Prop :=
  let xs := exchanges service calls (server w) in
  let n := Z.of_nat (List.length calls) in
  forall df,
    fst out = Ok (Some df) ->
    exists k,
      stdout (snd out)
      = (stdout w ++ [Line (format_i k ++ " out of " ++ format_i n ++ what)%string])%list /\
      0 <= k <= n /\
      (k = 0 -> df = []) /\
      (k = n -> forall x, In x xs -> exists rows, snd x = Returned rows).

(** How a download ends once the loop is over, in the world [w1] it left:
    the cleanup of the frame [agg], then the count line; or what the cleanup
    raised, and nothing printed. *)
Definition cleaned_and_counted {ServerState : Type} `{PandasDtypes}
           (agg : DataFrame) (downloaded n : Z) (what : string)
           (w1 : World ServerState)
  : result (option DataFrame) * World ServerState :=
  match clean_strings agg with
  | Ok df =>
      (Ok (Some df),
       mkWorld (server w1) (trace w1) (stdout w1 ++ [count_line downloaded n what]))
  | Raise e => (Raise e, w1)
  end.

(** The outcome of a method that ends with the cleanup of the frame [agg]:
    the cleaned table, or what the cleanup raised. *)
Definition cleanup_outcome `{PandasDtypes} (agg : DataFrame) : result (option DataFrame) :=
  match clean_strings agg with
  | Ok df => Ok (Some df)
  | Raise e => Raise e
  end.

(** ** A concrete setting for examples

    A remote end that counts the requests it served, a DATRAS service with
    data for some combinations only, and the usual reading of pandas'
    dtypes. *)

Module Sample.
Local Open Scope string_scope.

Definition is_missing (v : cell) : bool :=
  match v with
  | CNone | CNaN => true
  | _ => false
  end.

Definition is_string (v : cell) : bool :=
  match v with
  | CStr _ => true
  | _ => false
  end.

(** [.str] as from pandas 0.25: it raises on a column that holds values,
    none of them a string. *)
Definition rejects_str (x : list cell) : bool :=
  existsb (fun v => negb (is_missing v)) x && negb (existsb is_string x).

(** An inner join on [key] as pandas before 2.0 gives it for frames that
    share no other column: the rows grouped by key, the keys in the order
    they first appear on the left. *)
Definition join (left right : DataFrame) (key : string) : result DataFrame :=
  Ok (flat_map
        (fun k =>
           flat_map
             (fun l =>
                map (fun r => (row_set key k l
                               ++ filter (fun kv => negb (String.eqb (fst kv) key)) r)%list)
                    (filter (fun r => cell_eqb k (cell_at key r)) right))
             (filter (fun l => cell_eqb k (cell_at key l)) left))
        (unique (column left key))).

(** A column is stored as [object] when it holds a Python object that is
    not a number of 64 bits: a string, [None], or an integer beyond that
    size.  Frames hold the values as they are given. *)
#[export] Instance dtypes : PandasDtypes :=
  {| object_dtype := existsb (fun v => match v with
                                       | CStr _ | CNone => true
                                       | CInt z => ((z <? - 2 ^ 63) || (2 ^ 63 <=? z))%Z
                                       | _ => false
                                       end);
     append_rejects_empty := true;
     str_rejects := rejects_str;
     appended := fun df rows => (df ++ rows)%list;
     appended_held := fun df rows => held_as_itself (df ++ rows)%list;
     appended_columns := fun df rows c => iff_refl _;
     constructed := fun rows => rows;
     constructed_held := held_as_itself;
     constructed_columns := fun rows c => iff_refl _;
     merged := join |}.

Definition haul (survey : string) (year quarter aphia : Z) : record :=
  [("Survey", CStr survey); ("Year", CInt year); ("Quarter", CInt quarter);
   ("Valid_Aphia", CInt aphia)].

(** SP-ARSA has data for 2010 (padded strings, as DATRAS sends them) and
    nothing for 2011; any other survey makes the call fail. *)
Definition rows_for (survey year quarter : pyval) : reply (list record) :=
  match survey, year, quarter with
  | PyStr "SP-ARSA", PyInt 2010, PyInt q =>
      Returned [haul "SP-ARSA  " 2010 q 126436; haul " SP-ARSA" 2010 q 127160]
  | PyStr "SP-ARSA", PyInt 2011, _ => ReturnedNone
  | _, _, _ => Fault
  end.

Definition datras : DatrasService nat :=
  fun served c =>
    (match c with
     | DatrasGetHHdata s y q => rows_for s y q
     | DatrasGetHLdata s y q => rows_for s y q
     | DatrasGetSurveyList => Returned [[("Survey", CStr "SP-ARSA ")]]
     | DatrasGetSurveyYearList s => rows_for s (PyInt 2010) (PyInt 1)
     | DatrasGetSurveyYearQuarterList s y => rows_for s y (PyInt 1)
     end, S served).

Definition worms : WormsService nat :=
  fun served code =>
    (match code with
     | CInt 126436 => Returned " Gadus morhua"
     | CInt 127160 => ReturnedNone
     | _ => Fault
     end, S served).

Definition client : DATRASClient nat := mkClient 5 (Some datras) (Some worms).

(** The client whose DATRAS service could not be constructed. *)
Definition unset_client : DATRASClient nat := mkClient 5 None (Some worms).

Definition start : World nat := mkWorld 0%nat [] [].

Definition sp_arsa : pyval := PyStr "SP-ARSA".
Definition years (from : Z) (n : nat) : pyval :=
  PyList (map (fun i => PyInt (from + Z.of_nat i)) (seq 0 n)).

(** The client whose WoRMS service could not be constructed. *)
Definition no_worms_client : DATRASClient nat := mkClient 5 (Some datras) None.

(** Clients constructed with a limit of zero and with a negative limit. *)
Definition zero_client : DATRASClient nat := mkClient 0 (Some datras) (Some worms).
Definition negative_client : DATRASClient nat := mkClient (-1) (Some datras) (Some worms).

(** zeep's constructors: the DATRAS description cannot be fetched from
    ["down"], the WoRMS one can always be. *)
Definition datras_constructor (url : string) : result (DatrasService nat) :=
  if String.eqb url "down" then Raise RemoteError else Ok datras.
Definition worms_constructor (url : string) : result (WormsService nat) :=
  Ok worms.

(** A service whose hauls come with a year beyond 64 bits, which pandas
    keeps in an object column that holds no string. *)
Definition far_datras : DatrasService nat :=
  fun served c => (Returned [[("Year", CInt (2 ^ 64))]], S served).

Definition far_client : DATRASClient nat := mkClient 5 (Some far_datras) (Some worms).

(** A table of numbers only. *)
Definition numbers : DataFrame :=
  [[("Year", CInt 2010); ("Quarter", CInt 1)]; [("Year", CInt 2011); ("Quarter", CInt 4)]].

(** A table in which the years of one download came as strings: the column
    [Year] is an object column, [Quarter] is not. *)
Definition mixed : DataFrame :=
  [[("Year", CStr " 2010 "); ("Quarter", CInt 1)]; [("Year", CNone); ("Quarter", CInt 4)]].
End Sample.

(** ** The monad and the download loop *)

Section Loop.
Context {ServerState : Type} `{PandasDtypes}.
Implicit Types (w : World ServerState) (service : DatrasService ServerState).

Lemma world_eta w : mkWorld (server w) (trace w) (stdout w) = w.
Proof. destruct w; reflexivity. Qed.

Lemma fetch_run service c df n w :
  fetch (call_datras service c) (df, n) w =
  let x := (c, fst (service (server w) c)) in
  (Ok (accumulated df [x], n + successes [x]),
   mkWorld (snd (service (server w) c)) (trace w ++ wire [x]) (stdout w)).
Proof.
  unfold fetch, try_except, bind, call_datras, remote, ret, raise, append_rows,
    successes, counted.
  destruct (service (server w) c) as [r s']; destruct r as [| |[|row rows]];
    cbn; unfold counted; try destruct append_rejects_empty; cbn;
    rewrite ?Z.add_0_r; reflexivity.
Qed.

Lemma successes_cons x xs : successes (x :: xs) = successes [x] + successes xs.
Proof.
  unfold successes. simpl. destruct (counted (snd x)); simpl List.length; lia.
Qed.

(** The loop of a download method: every call is made, whatever the
    earlier ones came back with; the rows of those that came back with
    data are appended in order, and counted. *)
Lemma download_loop service {A : Type} (mk : A -> datras_call)
      (body : A -> DataFrame * Z -> M (DataFrame * Z)) :
  (forall d acc w, body d acc w = fetch (call_datras service (mk d)) acc w) ->
  forall ds df n w,
    for_each ds body (df, n) w =
    let xs := exchanges service (map mk ds) (server w) in
    (Ok (accumulated df xs, n + successes xs),
     mkWorld (server_after service (map mk ds) (server w))
             (trace w ++ wire xs) (stdout w)).
Proof.
  intros Hbody ds; induction ds as [|d ds IH]; intros df n w; simpl.
  - unfold ret. cbn. rewrite !app_nil_r, Z.add_0_r, world_eta. reflexivity.
  - unfold bind. rewrite Hbody, fetch_run. cbv zeta.
    destruct (service (server w) (mk d)) as [r s'] eqn:E.
    rewrite IH. cbn [fst snd server trace stdout]. cbv zeta.
    rewrite (successes_cons (mk d, r) (exchanges service (map mk ds) s')).
    change (wire ((mk d, r) :: exchanges service (map mk ds) s'))
      with (wire [(mk d, r)] ++ wire (exchanges service (map mk ds) s')).
    rewrite <- !app_assoc, <- Z.add_assoc. reflexivity.
Qed.
End Loop.

(** ** What each method does, in closed form *)

Section Runs.
Context {ServerState : Type} `{PandasDtypes}.
Implicit Types (w : World ServerState) (service : DatrasService ServerState)
         (self : DATRASClient ServerState).
Local Open Scope string_scope.

Lemma cleanup_then_count (agg : DataFrame) (k n : Z) (what : string) w1 :
  bind (lift (clean_strings agg))
       (fun df => bind (print (count_line k n what)) (fun _ => ret (Some df))) w1
  = cleaned_and_counted agg k n what w1.
Proof.
  unfold cleaned_and_counted, bind, lift, print, ret.
  destruct (clean_strings agg); reflexivity.
Qed.

Lemma trace_cleaned_and_counted (agg : DataFrame) (k n : Z) (what : string) w1 :
  trace (snd (cleaned_and_counted agg k n what w1)) = trace w1.
Proof. unfold cleaned_and_counted. destruct (clean_strings agg); reflexivity. Qed.

Lemma server_cleaned_and_counted (agg : DataFrame) (k n : Z) (what : string) w1 :
  server (snd (cleaned_and_counted agg k n what w1)) = server w1.
Proof. unfold cleaned_and_counted. destruct (clean_strings agg); reflexivity. Qed.

Lemma fst_cleaned_and_counted (agg : DataFrame) (k n : Z) (what : string) w1 :
  fst (cleaned_and_counted agg k n what w1) = cleanup_outcome agg.
Proof.
  unfold cleaned_and_counted, cleanup_outcome. destruct (clean_strings agg); reflexivity.
Qed.

Lemma getHHdata_run self service survey year quarter limit_download w :
  datras_client self = Some service ->
  let calls := hh_calls survey year quarter in
  let n := Z.of_nat (List.length calls) in
  let xs := exchanges service calls (server w) in
  getHHdata self survey year quarter limit_download w =
  if over_limit limit_download n (download_limits self)
  then (Ok None, refused_world self n w)
  else cleaned_and_counted (received xs) (successes xs) n " Datasets downloaded"
                           (fetched_world service calls w).
Proof.
  intros Hc. unfold getHHdata, hh_calls, over_limit. rewrite Hc. cbv zeta.
  rewrite length_map.
  destruct (limit_download && _); [reflexivity|].
  unfold bind at 1.
  rewrite (download_loop service
             (fun d => let '(s, y, q) := d in DatrasGetHHdata s y q))
    by (intros [[s y] q] acc w0; reflexivity).
  cbv zeta. cbv beta iota. rewrite cleanup_then_count, Z.add_0_l. reflexivity.
Qed.

Lemma getSurveyYearQuarterList_run self service survey year limit_download w :
  datras_client self = Some service ->
  let calls := syq_calls survey year in
  let n := Z.of_nat (List.length calls) in
  let xs := exchanges service calls (server w) in
  getSurveyYearQuarterList self survey year limit_download w =
  if over_limit limit_download n (download_limits self)
  then (Ok None, refused_world self n w)
  else cleaned_and_counted (received xs) (successes xs) n " Datasets downloaded"
                           (fetched_world service calls w).
Proof.
  intros Hc. unfold getSurveyYearQuarterList, syq_calls, over_limit. rewrite Hc.
  cbv zeta. rewrite length_map.
  destruct (limit_download && _); [reflexivity|].
  unfold bind at 1.
  rewrite (download_loop service
             (fun d => let '(s, y) := d in DatrasGetSurveyYearQuarterList s y))
    by (intros [s y] acc w0; reflexivity).
  cbv zeta. cbv beta iota. rewrite cleanup_then_count, Z.add_0_l. reflexivity.
Qed.

Lemma getSurveyYearList_run self service survey w :
  datras_client self = Some service ->
  let calls := sy_calls survey in
  let n := Z.of_nat (List.length calls) in
  let xs := exchanges service calls (server w) in
  getSurveyYearList self survey w =
  cleaned_and_counted (received xs) (successes xs) n " surveys downloaded"
                      (fetched_world service calls w).
Proof.
  intros Hc. unfold getSurveyYearList, sy_calls. rewrite Hc.
  cbv zeta. rewrite length_map.
  unfold bind at 1.
  rewrite (download_loop service DatrasGetSurveyYearList)
    by (intros s acc w0; reflexivity).
  cbv zeta. cbv beta iota. rewrite cleanup_then_count, Z.add_0_l. reflexivity.
Qed.

(** The world of [getHLdata] after the loop and the count line. *)
Lemma getHLdata_run self service survey year quarter translate_sps limit_download w :
  datras_client self = Some service ->
  let calls := hl_calls survey year quarter in
  let n := Z.of_nat (List.length calls) in
  let xs := exchanges service calls (server w) in
  getHLdata self survey year quarter translate_sps limit_download w =
  if over_limit limit_download n (download_limits self)
  then (Ok None, refused_world self n w)
  else
    let w1 := fetched_world service calls w in
    let w2 := mkWorld (server w1) (trace w1)
                      (stdout w1 ++ [count_line (successes xs) n " Datasets downloaded"]) in
    match translate_species self translate_sps (received xs) w2 with
    | (Ok agg, w3) => (cleanup_outcome agg, w3)
    | (Raise e, w3) => (Raise e, w3)
    end.
Proof.
  intros Hc. unfold getHLdata, hl_calls, over_limit. rewrite Hc. cbv zeta.
  rewrite length_map.
  destruct (limit_download && _); [reflexivity|].
  unfold bind at 1.
  rewrite (download_loop service
             (fun d => let '(s, y, q) := d in DatrasGetHLdata s y q))
    by (intros [[s y] q] acc w0; reflexivity).
  cbv zeta. cbv beta iota. unfold bind at 1. unfold print at 1. unfold bind at 1.
  unfold fetched_world. cbn [fst snd server trace stdout]. rewrite Z.add_0_l.
  fold (received (exchanges service
          (map (fun d => let '(s, y, q) := d in DatrasGetHLdata s y q)
               (product3 (listify survey) (listify year) (listify quarter)))
          (server w))).
  destruct (translate_species _ _ _ _) as [[agg|e] w3]; [|reflexivity].
  unfold cleanup_outcome, bind, lift, ret. destruct (clean_strings agg); reflexivity.
Qed.

Lemma getSurveyList_run self service w :
  datras_client self = Some service ->
  let r := fst (service (server w) DatrasGetSurveyList) in
  let w1 := mkWorld (snd (service (server w) DatrasGetSurveyList))
                    (trace w ++ [Request (Datras DatrasGetSurveyList);
                                 Response (completion_of r)])
                    (stdout w) in
  getSurveyList self w =
  match r with
  | Fault =>
      (Ok None, mkWorld (server w1) (trace w1)
                        (stdout w1 ++ [Line "Cannot download survey list"]))
  | _ =>
      match clean_strings (match r with
                           | Returned rows => constructed rows
                           | _ => empty_frame
                           end) with
      | Ok df =>
          (Ok (Some df),
           mkWorld (server w1) (trace w1) (stdout w1 ++ [Line "Survey list downloaded"]))
      | Raise e => (Raise e, w1)
      end
  end.
Proof.
  intros Hc. unfold getSurveyList. rewrite Hc.
  unfold bind, try_except, call_datras, remote, print, ret, lift.
  destruct (service (server w) DatrasGetSurveyList) as [r s']; destruct r; cbn;
    try reflexivity;
    match goal with |- context [clean_strings ?d] => destruct (clean_strings d) end;
    reflexivity.
Qed.
End Runs.

(** ** Facts about the vocabulary *)

Section Facts.
Context {ServerState : Type}.
Implicit Types (service : DatrasService ServerState).

Lemma listify_scalar v : isinstance_list v = false -> listify v = [v].
Proof. intros Hv. unfold listify. rewrite Hv. reflexivity. Qed.

Lemma listify_list l : listify (PyList l) = l.
Proof. reflexivity. Qed.

Lemma product2_length {A B : Type} (a : list A) (b : list B) :
  List.length (product2 a b) = (List.length a * List.length b)%nat.
Proof.
  unfold product2. induction a as [|x a IH]; simpl; [reflexivity|].
  rewrite length_app, length_map, IH. reflexivity.
Qed.

Lemma product3_length {A B C : Type} (a : list A) (b : list B) (c : list C) :
  List.length (product3 a b c)
  = (List.length a * List.length b * List.length c)%nat.
Proof.
  unfold product3. induction a as [|x a IH]; simpl; [reflexivity|].
  rewrite length_app, IH.
  assert (Hrow : List.length (flat_map (fun y => map (fun z => (x, y, z)) c) b)
                 = (List.length b * List.length c)%nat).
  { clear. induction b as [|y b IHb]; simpl; [reflexivity|].
    rewrite length_app, length_map, IHb. reflexivity. }
  rewrite Hrow. lia.
Qed.

Lemma in_product3 {A B C : Type} (a : list A) (b : list B) (c : list C) x y z :
  In (x, y, z) (product3 a b c) <-> In x a /\ In y b /\ In z c.
Proof.
  unfold product3. rewrite in_flat_map. split.
  - intros (x' & Hx & Hin). apply in_flat_map in Hin. destruct Hin as (y' & Hy & Hin).
    apply in_map_iff in Hin. destruct Hin as (z' & [= -> -> ->] & Hz). auto.
  - intros (Hx & Hy & Hz). exists x. split; [assumption|].
    apply in_flat_map. exists y. split; [assumption|].
    apply in_map_iff. exists z. auto.
Qed.

Lemma NoDup_flat_map {A B : Type} (f : A -> list B) (l : list A) :
  NoDup l ->
  (forall x, In x l -> NoDup (f x)) ->
  (forall x y b, In x l -> In y l -> In b (f x) -> In b (f y) -> x = y) ->
  NoDup (flat_map f l).
Proof.
  induction 1 as [|x l Hx Hl IH]; intros Hf Hdisj; simpl; [constructor|].
  apply NoDup_app.
  - apply Hf. left; reflexivity.
  - apply IH; intros; [apply Hf | eapply Hdisj]; simpl; eauto.
  - intros b Hb Hb'. apply in_flat_map in Hb'. destruct Hb' as (y & Hy & Hby).
    assert (x = y) by (eapply Hdisj; simpl; eauto). subst. contradiction.
Qed.

(** Filters without repeated values give a product without repeated
    combinations. *)
Lemma NoDup_product3 {A B C : Type} (a : list A) (b : list B) (c : list C) :
  NoDup a -> NoDup b -> NoDup c -> NoDup (product3 a b c).
Proof.
  intros Ha Hb Hc. unfold product3. apply NoDup_flat_map; [assumption| |].
  - intros x _. apply NoDup_flat_map; [assumption| |].
    + intros y _. apply NoDup_map_NoDup_ForallPairs; [|assumption].
      intros z z' _ _ [= ->]. reflexivity.
    + intros y y' d _ _ Hd Hd'.
      apply in_map_iff in Hd, Hd'.
      destruct Hd as (z & <- & _), Hd' as (z' & [= -> _] & _). reflexivity.
  - intros x x' d _ _ Hd Hd'.
    apply in_flat_map in Hd, Hd'.
    destruct Hd as (y & _ & Hd), Hd' as (y' & _ & Hd').
    apply in_map_iff in Hd, Hd'.
    destruct Hd as (z & <- & _), Hd' as (z' & [= -> _ _] & _). reflexivity.
Qed.

Lemma exchanges_calls service calls s :
  map fst (exchanges service calls s) = calls.
Proof.
  revert s; induction calls as [|c calls IH]; intros s; simpl; [reflexivity|].
  destruct (service s c) as [r s']; simpl. rewrite IH. reflexivity.
Qed.

Lemma exchanges_app service l1 l2 s :
  exchanges service (l1 ++ l2) s
  = exchanges service l1 s ++ exchanges service l2 (server_after service l1 s).
Proof.
  revert s; induction l1 as [|c l1 IH]; intros s; simpl; [reflexivity|].
  destruct (service s c) as [r s']; simpl. rewrite IH. reflexivity.
Qed.

Lemma requests_app (t u : list event) : requests (t ++ u) = requests t ++ requests u.
Proof. unfold requests. apply flat_map_app. Qed.

Lemma requests_wire (xs : list (datras_call * reply (list record))) :
  requests (wire xs) = map (fun x => Datras (fst x)) xs.
Proof. induction xs as [|x xs IH]; simpl; [reflexivity|]. rewrite IH. reflexivity. Qed.

Lemma paired_app (t u : list event) : paired t -> paired u -> paired (t ++ u).
Proof. induction 1; simpl; intros; [assumption|]. constructor; auto. Qed.

End Facts.


(** ** Every computation of the client is orderly *)

Section Order.
Context {ServerState : Type} `{PandasDtypes}.
Local Abbreviation M := (@M ServerState).
Local Open Scope py_scope.

Lemma orderly_ret {A : Type} (a : A) : orderly (ret a : M A).
Proof. intros w. exists [], []. simpl. rewrite !app_nil_r. repeat split. constructor. Qed.

Lemma orderly_raise {A : Type} (e : exn) : orderly (raise e : M A).
Proof. intros w. exists [], []. simpl. rewrite !app_nil_r. repeat split. constructor. Qed.

Lemma orderly_print (p : printed) : orderly (print p : M unit).
Proof. intros w. exists [], [p]. simpl. rewrite app_nil_r. repeat split. constructor. Qed.

Lemma orderly_remote {A : Type} (target : remote_call)
      (answer : ServerState -> reply A * ServerState) :
  orderly (remote target answer).
Proof.
  intros w. unfold remote. destruct (answer (server w)) as [r s'].
  exists [Request target; Response (completion_of r)], [].
  destruct r; simpl; rewrite app_nil_r; repeat split; repeat constructor.
Qed.

Lemma orderly_bind {A B : Type} (m : M A) (k : A -> M B) :
  orderly m -> (forall a, orderly (k a)) -> orderly (bind m k).
Proof.
  intros Hm Hk w. unfold bind.
  destruct (Hm w) as (em & lm & Et & Pm & Eo).
  destruct (m w) as [[a|e] w1]; simpl in *.
  - destruct (Hk a w1) as (ek & lk & Et' & Pk & Eo').
    exists (em ++ ek), (lm ++ lk).
    rewrite Et', Eo', Et, Eo, !app_assoc. auto using paired_app.
  - exists em, lm. auto.
Qed.

Lemma orderly_try_except {A : Type} (body handler : M A) :
  orderly body -> orderly handler -> orderly (try_except body handler).
Proof.
  intros Hb Hh w. unfold try_except.
  destruct (Hb w) as (eb & lb & Et & Pb & Eo).
  destruct (body w) as [[a|e] w1]; simpl in *.
  - exists eb, lb. auto.
  - destruct (Hh w1) as (eh & lh & Et' & Ph & Eo').
    exists (eb ++ eh), (lb ++ lh).
    rewrite Et', Eo', Et, Eo, !app_assoc. auto using paired_app.
Qed.

Lemma orderly_for_each {A S : Type} (xs : list A) (body : A -> S -> M S) :
  (forall x s, orderly (body x s)) -> forall s, orderly (for_each xs body s).
Proof.
  intros Hbody. induction xs as [|x xs IH]; intros s; simpl.
  - apply orderly_ret.
  - apply orderly_bind; auto.
Qed.

Lemma orderly_lift {A : Type} (r : result A) : orderly (lift r : M A).
Proof. intros w. exists [], []. simpl. rewrite !app_nil_r. repeat split. constructor. Qed.

Ltac orderly :=
  repeat first
    [ apply orderly_ret | apply orderly_raise | apply orderly_print
    | apply orderly_lift
    | apply orderly_remote
    | apply orderly_bind; [|intros ?]
    | apply orderly_try_except
    | apply orderly_for_each; intros ? ?
    | match goal with
      | |- orderly (match ?x with _ => _ end) => destruct x
      | |- orderly ((match ?x with _ => _ end) _) => destruct x
      end ].

Lemma orderly_translate_species (self : DATRASClient ServerState) t df :
  orderly (translate_species self t df).
Proof. unfold translate_species, getattr_column, lookup_names, call_worms. orderly. Qed.

End Order.


(** ** The client that could not be constructed *)

Section Unset.
Context {ServerState : Type} `{PandasDtypes}.
Implicit Types (w : World ServerState) (self : DATRASClient ServerState).
Local Open Scope string_scope.

(** When zeep's constructor raises for the DATRAS url, [__init__] leaves
    [datras_client] at [None]. *)
Lemma init_failed DatrasClient WormsClient datras_url worms_url limits e :
  DatrasClient datras_url = Raise e ->
  datras_client (init (ServerState := ServerState)
                      DatrasClient WormsClient datras_url worms_url limits) = None.
Proof.
  intros E. unfold init, setWormsClient, setDatrasClient. rewrite E.
  destruct (WormsClient worms_url); reflexivity.
Qed.

(** C8: when [self.datras_client] is [None], each of [getHHdata],
    [getHLdata], [getSurveyList], [getSurveyYearList] and
    [getSurveyYearQuarterList] prints 'DATRAS client not set', returns
    [None] and makes no remote call: the trace and the remote end are
    untouched. *)
Theorem unset_client_prints_and_returns_none self w :
  datras_client self = None ->
  let w' := mkWorld (server w) (trace w) (stdout w ++ [Line "DATRAS client not set"]) in
  (forall s y q ld, getHHdata self s y q ld w = (Ok None, w')) /\
  (forall s y q t ld, getHLdata self s y q t ld w = (Ok None, w')) /\
  getSurveyList self w = (Ok None, w') /\
  (forall s, getSurveyYearList self s w = (Ok None, w')) /\
  (forall s y ld, getSurveyYearQuarterList self s y ld w = (Ok None, w')).
Proof.
  intros Hnone.
  unfold getHHdata, getHLdata, getSurveyList, getSurveyYearList,
    getSurveyYearQuarterList.
  rewrite Hnone. repeat split.
Qed.
End Unset.

(** ** Scalars and singleton lists *)

Section Scalars.
Context {ServerState : Type} `{PandasDtypes}.
Implicit Types (w : World ServerState) (self : DATRASClient ServerState).

(** C10: for values [x], [y], [z] that are not lists, [getHHdata],
    [getHLdata], [getSurveyYearList] and [getSurveyYearQuarterList] called
    with them give the same result and the same world (remote calls, remote
    state and output) as called with [[x]], [[y]], [[z]]. *)
Theorem scalar_is_singleton_list self x y z w :
  isinstance_list x = false ->
  isinstance_list y = false ->
  isinstance_list z = false ->
  (forall ld,
      getHHdata self x y z ld w
      = getHHdata self (PyList [x]) (PyList [y]) (PyList [z]) ld w) /\
  (forall t ld,
      getHLdata self x y z t ld w
      = getHLdata self (PyList [x]) (PyList [y]) (PyList [z]) t ld w) /\
  getSurveyYearList self x w = getSurveyYearList self (PyList [x]) w /\
  (forall ld,
      getSurveyYearQuarterList self x y ld w
      = getSurveyYearQuarterList self (PyList [x]) (PyList [y]) ld w).
Proof.
  intros Hx Hy Hz.
  unfold getHHdata, getHLdata, getSurveyYearList, getSurveyYearQuarterList.
  rewrite !listify_list, (listify_scalar x Hx), (listify_scalar y Hy),
    (listify_scalar z Hz).
  repeat split.
Qed.
End Scalars.

(** ** One call per combination *)

Section Calls.
Context {ServerState : Type} `{PandasDtypes}.
Implicit Types (w : World ServerState) (self : DATRASClient ServerState)
         (service : DatrasService ServerState).
Local Open Scope string_scope.

Lemma hh_calls_length s y q :
  List.length (hh_calls s y q)
  = (List.length (listify s) * List.length (listify y) * List.length (listify q))%nat.
Proof. unfold hh_calls. rewrite length_map. apply product3_length. Qed.

Lemma hl_calls_length s y q :
  List.length (hl_calls s y q)
  = (List.length (listify s) * List.length (listify y) * List.length (listify q))%nat.
Proof. unfold hl_calls. rewrite length_map. apply product3_length. Qed.

Lemma syq_calls_length s y :
  List.length (syq_calls s y)
  = (List.length (listify s) * List.length (listify y))%nat.
Proof. unfold syq_calls. rewrite length_map. apply product2_length. Qed.

(** C3: when [getHHdata] passes the limit check, the requests it adds to
    the trace are exactly the [getHHdata] calls of the cartesian product
    survey x year x quarter, one per element and in the order of the
    product, whatever the calls come back with: every combination of a
    survey, a year and a quarter is requested, and when no filter repeats a
    value no request is made twice. *)
Theorem one_call_per_combination self service survey year quarter limit_download w :
  datras_client self = Some service ->
  let datasets := product3 (listify survey) (listify year) (listify quarter) in
  over_limit limit_download (Z.of_nat (List.length datasets)) (download_limits self)
  = false ->
  let issued :=
    map (fun d => let '(s, y, q) := d in Datras (DatrasGetHHdata s y q)) datasets in
  requests (trace (snd (getHHdata self survey year quarter limit_download w)))
  = (requests (trace w) ++ issued)%list /\
  (forall s y q,
      In s (listify survey) -> In y (listify year) -> In q (listify quarter) ->
      In (Datras (DatrasGetHHdata s y q)) issued) /\
  (NoDup (listify survey) -> NoDup (listify year) -> NoDup (listify quarter) ->
   NoDup issued).
Proof.
  intros Hset datasets Hpass issued. split; [|split].
  - rewrite (getHHdata_run self service) by assumption.
    unfold hh_calls. rewrite length_map. fold datasets. rewrite Hpass.
    rewrite trace_cleaned_and_counted. simpl.
    rewrite requests_app, requests_wire, <- map_map, exchanges_calls, map_map.
    f_equal. apply map_ext. intros [[s y] q]. reflexivity.
  - intros s y q Hs Hy Hq. unfold issued. apply in_map_iff.
    exists (s, y, q). split; [reflexivity|]. apply in_product3. auto.
  - intros Hs Hy Hq. unfold issued.
    apply NoDup_map_NoDup_ForallPairs; [|apply NoDup_product3; assumption].
    intros [[s y] q] [[s' y'] q'] _ _ [= -> -> ->]. reflexivity.
Qed.
End Calls.

(** ** The download limit *)

Section Limit.
Context {ServerState : Type} `{PandasDtypes}.
Implicit Types (w : World ServerState) (self : DATRASClient ServerState)
         (service : DatrasService ServerState).

Lemma over_limit_true (n limits : Z) : n > limits -> over_limit true n limits = true.
Proof. intros Hn. unfold over_limit. simpl. apply Z.gtb_lt. lia. Qed.

Lemma over_limit_within ld (n limits : Z) : n <= limits -> over_limit ld n limits = false.
Proof.
  intros Hn. unfold over_limit. destruct ld; simpl; [|reflexivity].
  destruct (n >? limits) eqn:E; [apply Z.gtb_lt in E; lia | reflexivity].
Qed.

Lemma over_limit_inv ld (n limits : Z) :
  over_limit ld n limits = true -> ld = true /\ n > limits.
Proof.
  unfold over_limit. destruct ld; simpl; [|discriminate].
  intros E. apply Z.gtb_lt in E. split; [reflexivity | lia].
Qed.

Lemma refuses_refused_world self n w : refuses w (Ok None, refused_world self n w).
Proof.
  unfold refuses, refused_world; simpl. repeat split.
  rewrite <- app_assoc. eexists; reflexivity.
Qed.

Lemma unset_refuses self w :
  datras_client self = None ->
  (forall s y q ld, refuses w (getHHdata self s y q ld w)) /\
  (forall s y q t ld, refuses w (getHLdata self s y q t ld w)) /\
  (forall s y ld, refuses w (getSurveyYearQuarterList self s y ld w)).
Proof.
  intros Hnone. unfold getHHdata, getHLdata, getSurveyYearQuarterList.
  rewrite Hnone. repeat split; eexists; reflexivity.
Qed.

Lemma getHHdata_refuses self s y q ld w :
  over_limit ld (Z.of_nat (List.length (hh_calls s y q))) (download_limits self) = true ->
  refuses w (getHHdata self s y q ld w).
Proof.
  intros Hover. destruct (datras_client self) as [service|] eqn:Hc.
  - rewrite (getHHdata_run self service) by assumption. cbv zeta. rewrite Hover.
    apply refuses_refused_world.
  - apply unset_refuses; assumption.
Qed.

Lemma getHLdata_refuses self s y q t ld w :
  over_limit ld (Z.of_nat (List.length (hl_calls s y q))) (download_limits self) = true ->
  refuses w (getHLdata self s y q t ld w).
Proof.
  intros Hover. destruct (datras_client self) as [service|] eqn:Hc.
  - rewrite (getHLdata_run self service) by assumption. cbv zeta. rewrite Hover.
    apply refuses_refused_world.
  - apply unset_refuses; assumption.
Qed.

Lemma getSurveyYearQuarterList_refuses self s y ld w :
  over_limit ld (Z.of_nat (List.length (syq_calls s y))) (download_limits self) = true ->
  refuses w (getSurveyYearQuarterList self s y ld w).
Proof.
  intros Hover. destruct (datras_client self) as [service|] eqn:Hc.
  - rewrite (getSurveyYearQuarterList_run self service) by assumption. cbv zeta.
    rewrite Hover. apply refuses_refused_world.
  - apply unset_refuses; assumption.
Qed.

Lemma downloads_cleaned_and_counted service calls agg k n what w :
  downloads service calls w
            (cleaned_and_counted agg k n what (fetched_world service calls w)).
Proof.
  unfold cleaned_and_counted, downloads.
  destruct (clean_strings agg); simpl; (split; [discriminate|]);
    exists []; rewrite app_nil_r; reflexivity.
Qed.

Lemma getHHdata_downloads self service s y q ld w :
  datras_client self = Some service ->
  over_limit ld (Z.of_nat (List.length (hh_calls s y q))) (download_limits self) = false ->
  downloads service (hh_calls s y q) w (getHHdata self s y q ld w).
Proof.
  intros Hc Hpass. rewrite (getHHdata_run self service) by assumption. cbv zeta.
  rewrite Hpass. apply downloads_cleaned_and_counted.
Qed.

Lemma getSurveyYearQuarterList_downloads self service s y ld w :
  datras_client self = Some service ->
  over_limit ld (Z.of_nat (List.length (syq_calls s y))) (download_limits self) = false ->
  downloads service (syq_calls s y) w (getSurveyYearQuarterList self s y ld w).
Proof.
  intros Hc Hpass. rewrite (getSurveyYearQuarterList_run self service) by assumption.
  cbv zeta. rewrite Hpass. apply downloads_cleaned_and_counted.
Qed.

Lemma getHLdata_downloads self service s y q t ld w :
  datras_client self = Some service ->
  over_limit ld (Z.of_nat (List.length (hl_calls s y q))) (download_limits self) = false ->
  downloads service (hl_calls s y q) w (getHLdata self s y q t ld w).
Proof.
  intros Hc Hpass. rewrite (getHLdata_run self service) by assumption. cbv zeta.
  rewrite Hpass.
  match goal with
  | |- context [translate_species ?a ?b ?c ?d] =>
      destruct (orderly_translate_species a b c d) as (em & lines & Et & _ & _);
      destruct (translate_species a b c d) as [[df|e] w3]
  end; unfold downloads, cleanup_outcome; simpl in *;
    try destruct (clean_strings df); simpl; (split; [discriminate|]);
    exists em; rewrite Et, app_assoc; reflexivity.
Qed.
End Limit.


Section Held.

Lemma coerced_trans u v x : coerced u v -> coerced v x -> coerced u x.
Proof.
  intros [->|[[-> ->]|(z & m & e & -> & -> & Hf)]] Hvx; [exact Hvx| |].
  - destruct Hvx as [->|[[E _]|(z & m & e & E & _)]]; try discriminate.
    right; left; auto.
  - destruct Hvx as [->|[[E _]|(z' & m' & e' & E & _)]]; try discriminate.
    right; right. exists z, m, e. auto.
Qed.

Lemma held_as_trans (a b c : DataFrame) : held_as a b -> held_as b c -> held_as a c.
Proof.
  unfold held_as. intros Hab. revert c.
  induction Hab as [|r r' a b Hr _ IH]; intros c Hbc; inversion Hbc; subst;
    constructor; [|auto].
  intros k. eapply coerced_trans; eauto.
Qed.

Lemma held_as_app (a a' b b' : DataFrame) :
  held_as a a' -> held_as b b' -> held_as (a ++ b)%list (a' ++ b')%list.
Proof. apply Forall2_app. Qed.

End Held.

(** ** The string cleanup *)

Section Strip.
Local Open Scope string_scope.

Lemma lstrip_spec s :
  exists pre, s = pre ++ lstrip s /\ all_space pre = true /\
              head_space (lstrip s) = false.
Proof.
  induction s as [|a s (pre & E & Hpre & Hhead)]; simpl.
  - exists "". auto.
  - destruct (py_isspace a) eqn:Ha.
    + exists (String a pre). simpl. rewrite Ha, Hpre, <- E. auto.
    + exists "". simpl. auto.
Qed.

Lemma rstrip_spec s :
  exists post, s = rstrip s ++ post /\ all_space post = true /\
               last_space (rstrip s) = false.
Proof.
  induction s as [|a s (post & E & Hpost & Hlast)]; simpl.
  - exists "". auto.
  - destruct (rstrip s) as [|b t] eqn:Hr.
    + simpl in E. subst post. destruct (py_isspace a) eqn:Ha.
      * exists (String a s). simpl. rewrite Ha, Hpost. auto.
      * exists s. simpl. rewrite Ha. auto.
    + exists post. simpl in *. rewrite <- E. auto.
Qed.

Lemma rstrip_head s : head_space s = false -> head_space (rstrip s) = false.
Proof.
  destruct s as [|a s]; simpl; [auto|]. intros Ha.
  destruct (rstrip s); [rewrite Ha|]; simpl; assumption.
Qed.

Lemma strip_spec s : stripped s (strip s).
Proof.
  unfold stripped, strip.
  destruct (lstrip_spec s) as (pre & E & Hpre & Hhead).
  destruct (rstrip_spec (lstrip s)) as (post & E' & Hpost & Hlast).
  split; [|split; [apply rstrip_head; assumption | assumption]].
  exists pre, post. rewrite <- E', <- E. auto.
Qed.
End Strip.


Section Cleanup.
Context `{PandasDtypes}.

Lemma mem_In c (l : list string) : existsb (String.eqb c) l = true <-> In c l.
Proof.
  rewrite existsb_exists. split.
  - intros (x & Hx & E). apply String.eqb_eq in E. subst. assumption.
  - intros Hc. exists c. split; [assumption | apply String.eqb_refl].
Qed.

Lemma lookup_row_set_same c v r : lookup c (row_set c v r) = Some v.
Proof.
  induction r as [|[k x] r IH]; simpl.
  - rewrite String.eqb_refl. reflexivity.
  - destruct (String.eqb k c) eqn:E; simpl; rewrite E; auto.
Qed.

Lemma lookup_row_set_other c c' v r :
  c' <> c -> lookup c' (row_set c v r) = lookup c' r.
Proof.
  intros Hne. induction r as [|[k x] r IH]; simpl.
  - destruct (String.eqb c c') eqn:E; [|reflexivity].
    apply String.eqb_eq in E. congruence.
  - destruct (String.eqb k c) eqn:E; simpl.
    + apply String.eqb_eq in E. subst k.
      destruct (String.eqb c c') eqn:E'; [|reflexivity].
      apply String.eqb_eq in E'. congruence.
    + rewrite IH. reflexivity.
Qed.

Lemma lookup_In c r v : lookup c r = Some v -> In c (map fst r).
Proof.
  induction r as [|[k x] r IH]; simpl; [discriminate|].
  destruct (String.eqb k c) eqn:E; [|auto].
  apply String.eqb_eq in E. auto.
Qed.

Lemma add_name_acc acc c x : In x acc -> In x (add_name acc c).
Proof. unfold add_name. destruct (existsb _ acc); [auto|]. intros; apply in_or_app; auto. Qed.

Lemma add_name_In acc c : In c (add_name acc c).
Proof.
  unfold add_name. destruct (existsb _ acc) eqn:E.
  - apply mem_In; assumption.
  - apply in_or_app; simpl; auto.
Qed.

Lemma fold_add_name_acc l acc x : In x acc -> In x (fold_left add_name l acc).
Proof. revert acc; induction l; simpl; auto using add_name_acc. Qed.

Lemma fold_add_name_In l acc x : In x l -> In x (fold_left add_name l acc).
Proof.
  revert acc; induction l as [|c l IH]; simpl; [tauto|].
  intros acc [->|Hx]; [apply fold_add_name_acc, add_name_In | auto].
Qed.

Lemma columns_In df r c : In r df -> In c (map fst r) -> In c (columns df).
Proof.
  unfold columns. generalize (@nil string).
  induction df as [|r0 df IH]; simpl; [tauto|].
  intros acc [->|Hr] Hc; [|eauto].
  clear IH. generalize (fold_add_name_In (map fst r) acc c Hc).
  generalize (fold_left add_name (map fst r) acc). clear.
  induction df as [|r1 df IH]; simpl; [auto|].
  intros acc Hc. apply IH, fold_add_name_acc, Hc.
Qed.

Lemma fold_add_name_inv l acc x :
  In x (fold_left add_name l acc) -> In x acc \/ In x l.
Proof.
  revert acc; induction l as [|c l IH]; simpl; [auto|]. intros acc Hx.
  destruct (IH _ Hx) as [Hacc|Hl]; [|auto].
  unfold add_name in Hacc. destruct (existsb _ acc); [auto|].
  apply in_app_or in Hacc. simpl in Hacc. tauto.
Qed.

(** A column of a table is a field of one of its rows. *)
Lemma columns_iff (df : DataFrame) c :
  In c (columns df) <-> exists r, In r df /\ In c (map fst r).
Proof.
  split; [|intros (r & Hr & Hc); eauto using columns_In].
  unfold columns.
  assert (G : forall acc,
             In c (fold_left (fun acc r => fold_left add_name (map fst r) acc) df acc) ->
             In c acc \/ exists r, In r df /\ In c (map fst r)).
  { induction df as [|r df IH]; simpl; [auto|]. intros acc Hc.
    destruct (IH _ Hc) as [Hacc|(r' & Hr' & Hc')].
    - apply fold_add_name_inv in Hacc. destruct Hacc; [auto|]. right. eauto.
    - right. eauto. }
  intros Hc. destruct (G [] Hc) as [[]|]; assumption.
Qed.

Lemma same_columns_trans (a b d : DataFrame) :
  same_columns a b -> same_columns b d -> same_columns a d.
Proof. intros Hab Hbd c. rewrite (Hab c). apply Hbd. Qed.

Lemma same_columns_app (a a' b : DataFrame) :
  same_columns a a' -> same_columns (a ++ b) (a' ++ b).
Proof.
  intros Ha c. rewrite !columns_iff. specialize (Ha c). rewrite !columns_iff in Ha.
  split; intros (r & Hr & Hc); apply in_app_or in Hr; destruct Hr as [Hr|Hr].
  - destruct (proj1 Ha (ex_intro _ r (conj Hr Hc))) as (r' & Hr' & Hc').
    exists r'. split; [apply in_or_app; auto | assumption].
  - exists r. split; [apply in_or_app; auto | assumption].
  - destruct (proj2 Ha (ex_intro _ r (conj Hr Hc))) as (r' & Hr' & Hc').
    exists r'. split; [apply in_or_app; auto | assumption].
  - exists r. split; [apply in_or_app; auto | assumption].
Qed.

Lemma cell_at_outside_columns df r c :
  In r df -> ~ In c (columns df) -> cell_at c r = CNaN.
Proof.
  intros Hr Hc. unfold cell_at. destruct (lookup c r) eqn:E; [|reflexivity].
  exfalso. eauto using columns_In, lookup_In.
Qed.

Lemma set_column_stripped df d c done :
  Forall2 (stripped_in done) df d ->
  Forall2 (stripped_in (c :: done)) df (set_column d c (map strip_cell (column df c))).
Proof.
  induction 1 as [|r r' df d Hr _ IH]; simpl; constructor; [|exact IH].
  intros c0. unfold cell_at at 1. simpl.
  destruct (String.eqb c0 c) eqn:E; simpl.
  - apply String.eqb_eq in E. subst c0. rewrite lookup_row_set_same. reflexivity.
  - rewrite lookup_row_set_other
      by (intros ->; rewrite String.eqb_refl in E; discriminate).
    apply Hr.
Qed.

Lemma setitem_stripped df cols :
  forall d done,
    Forall2 (stripped_in done) df d ->
    Forall2 (stripped_in (rev cols ++ done)) df
            (setitem d (map (fun c => (c, map strip_cell (column df c))) cols)).
Proof.
  unfold setitem. induction cols as [|c cols IH]; intros d done Hd; simpl; [exact Hd|].
  rewrite <- app_assoc. simpl. apply IH, set_column_stripped, Hd.
Qed.

Lemma Forall2_with_In {A B : Type} (R : A -> B -> Prop) (l0 l : list A) (d : list B) :
  Forall2 R l d -> (forall a, In a l -> In a l0) ->
  Forall2 (fun a b => In a l0 /\ R a b) l d.
Proof.
  induction 1; intros Hin; constructor; simpl in *; auto.
Qed.

(** When [apply] goes through, every column has been stripped. *)
Lemma apply_str_strip df cols fields :
  apply str_strip (map (fun c => (c, column df c)) cols) = Ok fields ->
  fields = map (fun c => (c, map strip_cell (column df c))) cols.
Proof.
  revert fields. induction cols as [|c cols IH]; intros fields; simpl.
  - intros [= <-]. reflexivity.
  - unfold str_strip at 1, str_accessor. destruct (str_rejects (column df c)); [discriminate|].
    destruct (apply str_strip _) as [rest|e]; [|discriminate].
    intros [= <-]. rewrite (IH rest eq_refl). reflexivity.
Qed.

(** [apply] raises only what [.str] raises, for a column it rejects. *)
Lemma apply_str_strip_raises df cols e :
  apply str_strip (map (fun c => (c, column df c)) cols) = Raise e ->
  e = AttributeError "str" /\
  exists c, In c cols /\ str_rejects (column df c) = true.
Proof.
  induction cols as [|c cols IH]; simpl; [discriminate|].
  unfold str_strip at 1, str_accessor.
  destruct (str_rejects (column df c)) eqn:E.
  - intros [= <-]. split; [reflexivity|]. exists c. auto.
  - destruct (apply str_strip _) as [rest|e']; [discriminate|].
    intros [= <-]. destruct (IH eq_refl) as (-> & c' & Hc' & Hr).
    split; [reflexivity|]. exists c'. auto.
Qed.

(** When the cleanup goes through, it has stripped the object columns and
    left the others. *)
Lemma clean_strings_cleaned agg df : clean_strings agg = Ok df -> cleaned agg df.
Proof.
  unfold cleaned, clean_strings, select_dtypes_object.
  set (cols := filter (fun c => object_dtype (column agg c)) (columns agg)).
  destruct (apply str_strip _) as [fields|e] eqn:Ea; [|discriminate].
  apply apply_str_strip in Ea. subst fields. intros [= <-].
  assert (H0 : Forall2 (stripped_in []) agg agg).
  { clear. induction agg; constructor; auto. intros c; reflexivity. }
  pose proof (setitem_stripped agg cols agg [] H0) as Hall.
  eapply Forall2_impl;
    [|apply (Forall2_with_In (stripped_in (rev cols ++ [])) agg agg _ Hall); auto].
  intros r r' [Hr Hs] c. specialize (Hs c). rewrite app_nil_r in Hs.
  destruct (existsb (String.eqb c) (rev cols)) eqn:E.
  - apply mem_In in E. rewrite <- in_rev in E. unfold cols in E.
    apply filter_In in E. destruct E as [_ E]. rewrite E.
    split; [auto | discriminate].
  - split; [|auto]. intros Hobj. rewrite Hs.
    assert (Hout : ~ In c (columns agg)).
    { intros Hc. assert (Hin : In c (rev cols))
        by (rewrite <- in_rev; apply filter_In; auto).
      apply mem_In in Hin. congruence. }
    rewrite (cell_at_outside_columns agg r c Hr Hout). reflexivity.
Qed.

(** The cleanup raises only [AttributeError] for [.str], and only when an
    object column of the frame is one the accessor rejects. *)
Lemma clean_strings_raises agg e :
  clean_strings agg = Raise e ->
  e = AttributeError "str" /\
  exists c, In c (columns agg) /\ object_dtype (column agg c) = true /\
            str_rejects (column agg c) = true.
Proof.
  unfold clean_strings, select_dtypes_object.
  destruct (apply str_strip _) as [fields|e'] eqn:Ea; [discriminate|].
  intros [= <-]. apply apply_str_strip_raises in Ea.
  destruct Ea as (-> & c & Hc & Hr). split; [reflexivity|].
  apply filter_In in Hc. destruct Hc as [Hc Ho]. exists c. auto.
Qed.

End Cleanup.

Section Threshold.
Context {ServerState : Type} `{PandasDtypes}.
Implicit Types (w : World ServerState) (self : DATRASClient ServerState)
         (service : DatrasService ServerState).
Local Open Scope string_scope.

(** C1 (amended): with [limit_download=True], when the number of
    combinations exceeds [download_limits], [getHHdata], [getHLdata] and
    [getSurveyYearQuarterList] make no remote call and return [None], only
    printing; otherwise, provided the DATRAS client is set, the download
    goes ahead: every combination is requested. *)
Theorem limit_refuses_else_set_client_downloads self survey year quarter translate_sps w :
  let n3 := Z.of_nat (List.length
                        (product3 (listify survey) (listify year) (listify quarter))) in
  let n2 := Z.of_nat (List.length (product2 (listify survey) (listify year))) in
  (n3 > download_limits self ->
   refuses w (getHHdata self survey year quarter true w) /\
   refuses w (getHLdata self survey year quarter translate_sps true w)) /\
  (n2 > download_limits self ->
   refuses w (getSurveyYearQuarterList self survey year true w)) /\
  (forall service,
      datras_client self = Some service ->
      (n3 <= download_limits self ->
       downloads service (hh_calls survey year quarter) w
                 (getHHdata self survey year quarter true w) /\
       downloads service (hl_calls survey year quarter) w
                 (getHLdata self survey year quarter translate_sps true w)) /\
      (n2 <= download_limits self ->
       downloads service (syq_calls survey year) w
                 (getSurveyYearQuarterList self survey year true w))).
Proof.
  intros n3 n2.
  assert (E3 : n3 = Z.of_nat (List.length (hh_calls survey year quarter)))
    by (unfold n3, hh_calls; rewrite length_map; reflexivity).
  assert (E3' : n3 = Z.of_nat (List.length (hl_calls survey year quarter)))
    by (unfold n3, hl_calls; rewrite length_map; reflexivity).
  assert (E2 : n2 = Z.of_nat (List.length (syq_calls survey year)))
    by (unfold n2, syq_calls; rewrite length_map; reflexivity).
  split; [|split].
  - intros Hn. split.
    + apply getHHdata_refuses. rewrite <- E3. apply over_limit_true; assumption.
    + apply getHLdata_refuses. rewrite <- E3'. apply over_limit_true; assumption.
  - intros Hn. apply getSurveyYearQuarterList_refuses. rewrite <- E2.
    apply over_limit_true; assumption.
  - intros service Hset. split.
    + intros Hn. split.
      * apply getHHdata_downloads; [assumption|].
        rewrite <- E3. apply over_limit_within; assumption.
      * apply getHLdata_downloads; [assumption|].
        rewrite <- E3'. apply over_limit_within; assumption.
    + intros Hn. apply getSurveyYearQuarterList_downloads; [assumption|].
      rewrite <- E2. apply over_limit_within; assumption.
Qed.

(** C9 (amended): provided the DATRAS client is set, the threshold is
    strict and conditional: with as many combinations as [download_limits]
    the download goes ahead, with [limit_download=False] it goes ahead for
    any number of combinations, and a download is refused only with
    [limit_download=True] and strictly more combinations than
    [download_limits]. *)
Theorem limit_is_strict_and_conditional self service survey year quarter
        translate_sps limit_download w :
  datras_client self = Some service ->
  let n3 := Z.of_nat (List.length
                        (product3 (listify survey) (listify year) (listify quarter))) in
  let n2 := Z.of_nat (List.length (product2 (listify survey) (listify year))) in
  let hh ld := getHHdata self survey year quarter ld w in
  let hl ld := getHLdata self survey year quarter translate_sps ld w in
  let syq ld := getSurveyYearQuarterList self survey year ld w in
  (n3 = download_limits self ->
   downloads service (hh_calls survey year quarter) w (hh limit_download) /\
   downloads service (hl_calls survey year quarter) w (hl limit_download)) /\
  (n2 = download_limits self ->
   downloads service (syq_calls survey year) w (syq limit_download)) /\
  (downloads service (hh_calls survey year quarter) w (hh false) /\
   downloads service (hl_calls survey year quarter) w (hl false) /\
   downloads service (syq_calls survey year) w (syq false)) /\
  (refuses w (hh limit_download) -> limit_download = true /\ n3 > download_limits self) /\
  (refuses w (hl limit_download) -> limit_download = true /\ n3 > download_limits self) /\
  (refuses w (syq limit_download) -> limit_download = true /\ n2 > download_limits self).
Proof.
  intros Hset n3 n2 hh hl syq.
  assert (E3 : n3 = Z.of_nat (List.length (hh_calls survey year quarter)))
    by (unfold n3, hh_calls; rewrite length_map; reflexivity).
  assert (E3' : n3 = Z.of_nat (List.length (hl_calls survey year quarter)))
    by (unfold n3, hl_calls; rewrite length_map; reflexivity).
  assert (E2 : n2 = Z.of_nat (List.length (syq_calls survey year)))
    by (unfold n2, syq_calls; rewrite length_map; reflexivity).
  assert (Hhh : forall ld, over_limit ld n3 (download_limits self) = false ->
                           downloads service (hh_calls survey year quarter) w (hh ld))
    by (intros ld Hp; apply getHHdata_downloads; [assumption | rewrite <- E3; exact Hp]).
  assert (Hhl : forall ld, over_limit ld n3 (download_limits self) = false ->
                           downloads service (hl_calls survey year quarter) w (hl ld))
    by (intros ld Hp; apply getHLdata_downloads; [assumption | rewrite <- E3'; exact Hp]).
  assert (Hsyq : forall ld, over_limit ld n2 (download_limits self) = false ->
                            downloads service (syq_calls survey year) w (syq ld))
    by (intros ld Hp; apply getSurveyYearQuarterList_downloads;
        [assumption | rewrite <- E2; exact Hp]).
  assert (Hnot : forall calls out ld n,
             (over_limit ld n (download_limits self) = false ->
              downloads service calls w out) ->
             refuses w out -> ld = true /\ n > download_limits self).
  { intros calls out ld n Hd [Hnone _].
    destruct (over_limit ld n (download_limits self)) eqn:E.
    - apply over_limit_inv; assumption.
    - destruct (Hd eq_refl) as [Hsome _]. contradiction. }
  split; [|split; [|split; [|split; [|split]]]].
  - intros Hn. split.
    + apply Hhh, over_limit_within; lia.
    + apply Hhl, over_limit_within; lia.
  - intros Hn. apply Hsyq, over_limit_within; lia.
  - split; [|split].
    + apply Hhh; reflexivity.
    + apply Hhl; reflexivity.
    + apply Hsyq; reflexivity.
  - apply (Hnot _ _ _ _ (Hhh limit_download)).
  - apply (Hnot _ _ _ _ (Hhl limit_download)).
  - apply (Hnot _ _ _ _ (Hsyq limit_download)).
Qed.

(** C5: the number of datasets [getHHdata], [getHLdata] and
    [getSurveyYearQuarterList] check against the limit is the product of
    the lengths of the listified filters, and it is the number they print:
    in 'Your are trying to download %i datasets. Exiting' when they refuse,
    and as the total of '%i out of %i Datasets downloaded' otherwise.
    ([getHHdata] and [getSurveyYearQuarterList] print that line after the
    cleanup, so not when the cleanup raises; [getHLdata] prints it before
    anything else.) *)
Theorem datasets_number_is_product_of_lengths self service survey year quarter
        translate_sps limit_download w :
  datras_client self = Some service ->
  let n3 := Z.of_nat (List.length (listify survey) * List.length (listify year)
                      * List.length (listify quarter)) in
  let n2 := Z.of_nat (List.length (listify survey) * List.length (listify year)) in
  let hh := getHHdata self survey year quarter limit_download w in
  let hl := getHLdata self survey year quarter translate_sps limit_download w in
  let syq := getSurveyYearQuarterList self survey year limit_download w in
  let refusal n :=
    [Line ("Data download is limited to " ++ format_i (download_limits self)
           ++ " datasets.");
     Line ("Your are trying to download " ++ format_i n ++ " datasets. Exiting")] in
  let summary k n :=
    Line (format_i k ++ " out of " ++ format_i n ++ " Datasets downloaded") in
  let refused n := (Ok None, mkWorld (server w) (trace w) (stdout w ++ refusal n)%list) in
  let after_cleanup calls n :=
    let xs := exchanges service calls (server w) in
    match clean_strings (received xs) with
    | Ok _ => (stdout w ++ [summary (successes xs) n])%list
    | Raise _ => stdout w
    end in
  (Z.of_nat (List.length (product3 (listify survey) (listify year) (listify quarter)))
   = n3 /\
   Z.of_nat (List.length (product2 (listify survey) (listify year))) = n2) /\
  (if limit_download && (n3 >? download_limits self)
   then hh = refused n3 /\ hl = refused n3
   else stdout (snd hh) = after_cleanup (hh_calls survey year quarter) n3 /\
        (exists more,
            stdout (snd hl)
            = (stdout w
               ++ [summary (successes (exchanges service (hl_calls survey year quarter)
                                                 (server w))) n3]
               ++ more)%list)) /\
  (if limit_download && (n2 >? download_limits self)
   then syq = refused n2
   else stdout (snd syq) = after_cleanup (syq_calls survey year) n2).
Proof.
  intros Hset n3 n2 hh hl syq refusal summary refused after_cleanup.
  unfold hh, hl, syq, refused, after_cleanup, refusal, summary.
  rewrite (getHHdata_run self service), (getHLdata_run self service),
    (getSurveyYearQuarterList_run self service) by assumption.
  cbv zeta. rewrite hh_calls_length, hl_calls_length, syq_calls_length.
  rewrite product3_length, product2_length. fold n3 n2.
  unfold over_limit, refused_world, limited_line, exiting_line.
  split; [split; reflexivity|]. split.
  - destruct (limit_download && (n3 >? download_limits self));
      [rewrite <- app_assoc; split; reflexivity|]. split.
    + unfold cleaned_and_counted, count_line.
      destruct (clean_strings _); reflexivity.
    + match goal with
      | |- context [translate_species ?a ?b ?c ?d] =>
          destruct (orderly_translate_species a b c d) as (em & lines & _ & _ & Eo);
          destruct (translate_species a b c d) as [[df|e] w3]
      end; simpl in *; exists lines; rewrite Eo, <- app_assoc; reflexivity.
  - destruct (limit_download && (n2 >? download_limits self));
      [rewrite <- app_assoc; reflexivity|].
    unfold cleaned_and_counted, count_line.
    destruct (clean_strings _); reflexivity.
Qed.

(** The frame the loop has accumulated holds the concatenation of the
    responses, in order. *)
Lemma accumulated_held (xs : list (datras_call * reply (list record))) :
  forall base df,
    held_as base df ->
    held_as (base ++ List.concat (responses xs))%list (accumulated df xs).
Proof.
  induction xs as [|[c r] xs IH]; intros base df Hdf; simpl.
  - rewrite app_nil_r. exact Hdf.
  - destruct r as [| |rows]; try (apply IH; exact Hdf).
    change (held_as (base ++ (rows ++ List.concat (responses xs)))%list
              (accumulated (if counted (Returned rows) then appended df rows else df)
                           xs)).
    rewrite app_assoc.
    destruct (counted (Returned rows)) eqn:E.
    + apply IH. eapply held_as_trans; [|apply appended_held].
      apply held_as_app; [exact Hdf | apply held_as_itself].
    + unfold counted in E. destruct rows; [|discriminate].
      rewrite app_nil_r. apply IH. exact Hdf.
Qed.

Lemma received_held (xs : list (datras_call * reply (list record))) :
  held_as (List.concat (responses xs)) (received xs).
Proof. apply (accumulated_held xs [] []). constructor. Qed.

(** It has the columns of the responses. *)
Lemma accumulated_columns (xs : list (datras_call * reply (list record))) :
  forall base df,
    same_columns base df ->
    same_columns (base ++ List.concat (responses xs))%list (accumulated df xs).
Proof.
  induction xs as [|[c r] xs IH]; intros base df Hdf; simpl.
  - rewrite app_nil_r. exact Hdf.
  - destruct r as [| |rows]; try (apply IH; exact Hdf).
    change (same_columns (base ++ (rows ++ List.concat (responses xs)))%list
              (accumulated (if counted (Returned rows) then appended df rows else df)
                           xs)).
    rewrite app_assoc.
    destruct (counted (Returned rows)) eqn:E.
    + apply IH. eapply same_columns_trans; [|apply appended_columns].
      apply same_columns_app, Hdf.
    + unfold counted in E. destruct rows; [|discriminate].
      rewrite app_nil_r. apply IH. exact Hdf.
Qed.

Lemma received_columns (xs : list (datras_call * reply (list record))) :
  same_columns (List.concat (responses xs)) (received xs).
Proof. apply (accumulated_columns xs [] []). intros c. reflexivity. Qed.

(** C2 (amended): when [getHHdata] passes the limit check, the frame it
    has after the loop holds the concatenation, in iteration order, of the
    responses of exactly the calls that succeeded with a result that is not
    [None] (pandas may hold an integer as the float of the same value and
    [None] as NaN), with their fields as columns; what it returns is the
    string cleanup of that frame: the cleaned table, or the exception of the
    cleanup; every combination is put to the service, and whatever one call
    comes back with, the calls after it are made and their responses
    included all the same. *)
Theorem returned_table_is_cleaned_concatenation self service survey year quarter
        limit_download w :
  datras_client self = Some service ->
  let calls := hh_calls survey year quarter in
  over_limit limit_download (Z.of_nat (List.length calls)) (download_limits self)
  = false ->
  let xs := exchanges service calls (server w) in
  (held_as (List.concat (responses xs)) (received xs) /\
   same_columns (List.concat (responses xs)) (received xs)) /\
  fst (getHHdata self survey year quarter limit_download w)
  = match clean_strings (received xs) with
    | Ok df => Ok (Some df)
    | Raise e => Raise e
    end /\
  (forall df, clean_strings (received xs) = Ok df -> cleaned (received xs) df) /\
  map fst xs = calls /\
  (forall before c after,
      calls = (before ++ c :: after)%list ->
      let s1 := server_after service before (server w) in
      xs = (exchanges service before (server w)
            ++ (c, fst (service s1 c))
            :: exchanges service after (snd (service s1 c)))%list).
Proof.
  intros Hset calls Hpass xs.
  rewrite (getHHdata_run self service) by assumption. cbv zeta.
  fold calls. rewrite Hpass.
  split; [split; [apply received_held | apply received_columns]|].
  split; [apply fst_cleaned_and_counted|].
  split; [intros df; apply clean_strings_cleaned|]. split.
  - apply exchanges_calls.
  - intros before c after E. unfold xs. rewrite E, exchanges_app. simpl.
    destruct (service _ c); reflexivity.
Qed.
End Threshold.

Section Cleaned.
Context {ServerState : Type} `{PandasDtypes}.
Implicit Types (w : World ServerState) (self : DATRASClient ServerState)
         (service : DatrasService ServerState).
Local Open Scope string_scope.

Lemma cleanup_outcome_table agg df :
  cleanup_outcome agg = Ok (Some df) -> clean_strings agg = Ok df.
Proof.
  unfold cleanup_outcome. destruct (clean_strings agg); [|discriminate].
  intros [= <-]. reflexivity.
Qed.

(** C7: when [getHHdata], [getHLdata], [getSurveyList], [getSurveyYearList]
    or [getSurveyYearQuarterList] returns a table, that table is the
    aggregated one (for [getHLdata], what the species translation made of
    it after the count line; for [getSurveyList], the frame built from the
    one response) with the strings of every object column stripped of
    leading and trailing whitespace and with the values of the other
    columns unchanged. *)
Theorem cleanup_strips_object_columns self service w :
  datras_client self = Some service ->
  (forall s, stripped s (strip s)) /\
  (forall s y q ld df,
      fst (getHHdata self s y q ld w) = Ok (Some df) ->
      cleaned (received (exchanges service (hh_calls s y q) (server w))) df) /\
  (forall s y q t ld df,
      fst (getHLdata self s y q t ld w) = Ok (Some df) ->
      let calls := hl_calls s y q in
      let xs := exchanges service calls (server w) in
      let counted_world :=
        mkWorld (server_after service calls (server w))
                (trace w ++ wire xs)
                (stdout w ++ [Line (format_i (successes xs) ++ " out of "
                                    ++ format_i (Z.of_nat (List.length calls))
                                    ++ " Datasets downloaded")]) in
      exists agg,
        fst (translate_species self t (received xs) counted_world) = Ok agg /\
        cleaned agg df /\
        (t = false -> agg = received xs)) /\
  (forall df,
      fst (getSurveyList self w) = Ok (Some df) ->
      cleaned (match fst (service (server w) DatrasGetSurveyList) with
               | Returned rows => constructed rows
               | _ => empty_frame
               end) df) /\
  (forall s df,
      fst (getSurveyYearList self s w) = Ok (Some df) ->
      cleaned (received (exchanges service (sy_calls s) (server w))) df) /\
  (forall s y ld df,
      fst (getSurveyYearQuarterList self s y ld w) = Ok (Some df) ->
      cleaned (received (exchanges service (syq_calls s y) (server w))) df).
Proof.
  intros Hset. split; [exact strip_spec|].
  split; [|split; [|split; [|split]]].
  - intros s y q ld df. rewrite (getHHdata_run self service) by assumption.
    cbv zeta. destruct (over_limit _ _ _); [discriminate|].
    rewrite fst_cleaned_and_counted. intros E.
    apply clean_strings_cleaned, cleanup_outcome_table, E.
  - intros s y q t ld df. rewrite (getHLdata_run self service) by assumption.
    cbv zeta. destruct (over_limit _ _ _); [discriminate|].
    unfold fetched_world, count_line. cbn [server trace stdout].
    match goal with
    | |- context [translate_species ?a ?b ?c ?d] =>
        destruct (translate_species a b c d) as [[agg|e] w3] eqn:E
    end; cbn [fst]; [|discriminate].
    intros Hdf. exists agg. split; [reflexivity|].
    split; [apply clean_strings_cleaned, cleanup_outcome_table, Hdf|].
    intros ->. unfold translate_species, ret in E. congruence.
  - intros df. rewrite (getSurveyList_run self service) by assumption.
    cbv zeta. destruct (fst (service (server w) DatrasGetSurveyList));
      [discriminate| |];
      match goal with
      | |- context [clean_strings ?d] => destruct (clean_strings d) eqn:E
      end; cbn [fst]; try discriminate; intros [= <-];
      apply clean_strings_cleaned, E.
  - intros s df. rewrite (getSurveyYearList_run self service) by assumption.
    cbv zeta. rewrite fst_cleaned_and_counted. intros E.
    apply clean_strings_cleaned, cleanup_outcome_table, E.
  - intros s y ld df.
    rewrite (getSurveyYearQuarterList_run self service) by assumption.
    cbv zeta. destruct (over_limit _ _ _); [discriminate|].
    rewrite fst_cleaned_and_counted. intros E.
    apply clean_strings_cleaned, cleanup_outcome_table, E.
Qed.

Lemma accumulated_uncounted (xs : list (datras_call * reply (list record))) df :
  (forall x, In x xs -> counted (snd x) = false) -> accumulated df xs = df.
Proof.
  induction xs as [|x xs IH]; intros Hall; simpl; [reflexivity|].
  rewrite (Hall x) by (left; reflexivity). apply IH. intros; apply Hall; right; assumption.
Qed.

(** A failed fetch never shows by itself: when the download goes ahead,
    [getHHdata], [getSurveyYearList], [getSurveyYearQuarterList], and
    [getHLdata] without species translation, end as the cleanup of the
    frame of what did come back ends, whatever the calls came back with;
    when nothing came back, they return the empty table. *)
Lemma failed_fetches_are_swallowed self service w :
  datras_client self = Some service ->
  (forall s y q ld,
      over_limit ld (Z.of_nat (List.length (hh_calls s y q))) (download_limits self)
      = false ->
      let xs := exchanges service (hh_calls s y q) (server w) in
      fst (getHHdata self s y q ld w) = cleanup_outcome (received xs) /\
      ((forall x, In x xs -> counted (snd x) = false) ->
       fst (getHHdata self s y q ld w) = Ok (Some []))) /\
  (forall s y q ld,
      over_limit ld (Z.of_nat (List.length (hl_calls s y q))) (download_limits self)
      = false ->
      let xs := exchanges service (hl_calls s y q) (server w) in
      fst (getHLdata self s y q false ld w) = cleanup_outcome (received xs) /\
      ((forall x, In x xs -> counted (snd x) = false) ->
       fst (getHLdata self s y q false ld w) = Ok (Some []))) /\
  (forall s,
      let xs := exchanges service (sy_calls s) (server w) in
      fst (getSurveyYearList self s w) = cleanup_outcome (received xs) /\
      ((forall x, In x xs -> counted (snd x) = false) ->
       fst (getSurveyYearList self s w) = Ok (Some []))) /\
  (forall s y ld,
      over_limit ld (Z.of_nat (List.length (syq_calls s y))) (download_limits self)
      = false ->
      let xs := exchanges service (syq_calls s y) (server w) in
      fst (getSurveyYearQuarterList self s y ld w) = cleanup_outcome (received xs) /\
      ((forall x, In x xs -> counted (snd x) = false) ->
       fst (getSurveyYearQuarterList self s y ld w) = Ok (Some []))).
Proof.
  intros Hc.
  assert (Hnone : forall xs : list (datras_call * reply (list record)),
             (forall x, In x xs -> counted (snd x) = false) ->
             cleanup_outcome (received xs) = Ok (Some [])).
  { intros xs Hall. unfold received. rewrite accumulated_uncounted by assumption.
    reflexivity. }
  split; [|split; [|split]].
  - intros s y q ld Hpass xs.
    rewrite (getHHdata_run self service) by assumption. cbv zeta. rewrite Hpass.
    rewrite fst_cleaned_and_counted. split; [reflexivity | apply Hnone].
  - intros s y q ld Hpass xs.
    rewrite (getHLdata_run self service) by assumption. cbv zeta. rewrite Hpass.
    unfold translate_species, ret. cbn [fst]. split; [reflexivity | apply Hnone].
  - intros s xs.
    rewrite (getSurveyYearList_run self service) by assumption. cbv zeta.
    rewrite fst_cleaned_and_counted. split; [reflexivity | apply Hnone].
  - intros s y ld Hpass xs.
    rewrite (getSurveyYearQuarterList_run self service) by assumption. cbv zeta.
    rewrite Hpass.
    rewrite fst_cleaned_and_counted. split; [reflexivity | apply Hnone].
Qed.

(** With species translation, [getHLdata] raises when no call came back
    with data: the empty table has no column [Valid_Aphia]. *)
Lemma translation_raises_on_empty_table self service worms s y q ld w :
  datras_client self = Some service ->
  worms_client self = Some worms ->
  over_limit ld (Z.of_nat (List.length (hl_calls s y q))) (download_limits self) = false ->
  (forall x, In x (exchanges service (hl_calls s y q) (server w)) ->
             counted (snd x) = false) ->
  fst (getHLdata self s y q true ld w) = Raise (AttributeError "Valid_Aphia").
Proof.
  intros Hc Hw Hpass Hnone.
  rewrite (getHLdata_run self service) by assumption. cbv zeta. rewrite Hpass.
  unfold received. rewrite accumulated_uncounted by assumption.
  unfold translate_species. rewrite Hw.
  reflexivity.
Qed.
End Cleaned.

(** ** The species translation of [getHLdata] *)

Section Translation.
Context {ServerState : Type} `{PandasDtypes}.
Implicit Types (w : World ServerState) (worms : WormsService ServerState).
Local Open Scope py_scope.
Local Open Scope string_scope.

Lemma cell_eqb_eq (a b : cell) : cell_eqb a b = true <-> a = b.
Proof.
  destruct a, b; simpl; split; try discriminate; try reflexivity; intros E.
  - apply String.eqb_eq in E. congruence.
  - injection E as ->. apply String.eqb_refl.
  - apply Z.eqb_eq in E. congruence.
  - injection E as ->. apply Z.eqb_refl.
  - apply andb_true_iff in E. destruct E as [E1 E2].
    apply Z.eqb_eq in E1, E2. congruence.
  - injection E as -> ->. rewrite !Z.eqb_refl. reflexivity.
Qed.

Lemma mem_cell (v : cell) (l : list cell) : existsb (cell_eqb v) l = true <-> In v l.
Proof.
  rewrite existsb_exists. split.
  - intros (x & Hx & E). apply cell_eqb_eq in E. subst. assumption.
  - intros Hv. exists v. split; [assumption | apply cell_eqb_eq; reflexivity].
Qed.

Lemma unique_from (x acc : list cell) :
  let u := fold_left (fun acc v => if existsb (cell_eqb v) acc then acc
                                   else (acc ++ [v])%list) x acc in
  (NoDup acc -> NoDup u) /\ (forall v, In v u <-> In v acc \/ In v x).
Proof.
  revert acc. induction x as [|a x IH]; intros acc; simpl.
  - split; [auto | intros v; tauto].
  - destruct (existsb (cell_eqb a) acc) eqn:E.
    + destruct (IH acc) as [Hnd Hin]. split; [assumption|].
      intros v. rewrite Hin. apply mem_cell in E.
      split; [tauto | intros [?|[<-|?]]; auto].
    + destruct (IH (acc ++ [a])%list) as [Hnd Hin]. split.
      * intros Hacc. apply Hnd. apply NoDup_app; [assumption | repeat constructor; auto |].
        intros b Hb [<-|[]]. apply mem_cell in Hb. congruence.
      * intros v. rewrite Hin, in_app_iff. simpl. tauto.
Qed.

(** [unique] keeps every value once. *)
Lemma unique_NoDup (x : list cell) : NoDup (unique x).
Proof. apply (unique_from x []). constructor. Qed.

Lemma unique_In (x : list cell) v : In v (unique x) <-> In v x.
Proof. unfold unique. rewrite (proj2 (unique_from x [])). simpl. tauto. Qed.

Lemma worms_exchanges_codes worms codes s : map fst (worms_exchanges worms codes s) = codes.
Proof.
  revert s; induction codes as [|c codes IH]; intros s; simpl; [reflexivity|].
  destruct (worms s c) as [r s']; simpl. rewrite IH. reflexivity.
Qed.

(** The lookup loop in closed form: it never raises, and appends one row
    per code. *)
Lemma lookup_names_from worms codes :
  forall names w,
    for_each codes
      (fun code names =>
         name <- try_except
                   (r <- call_worms worms code ;;
                    ret (match r with Some n => CStr n | None => CNone end))
                   (ret (CStr "No data")) ;;
         print (Values [code; name]) ;;
         ret (appended names [[("Valid_Aphia", code); ("Species_Name", name)]]))
      names w
    = let xs := worms_exchanges worms codes (server w) in
      (Ok (fold_left (fun names x => appended names [name_row x]) xs names),
       mkWorld (worms_after worms codes (server w))
               (trace w ++ worms_wire xs) (stdout w ++ worms_lines xs)).
Proof.
  induction codes as [|code codes IH]; intros names w; simpl.
  - unfold ret. rewrite !app_nil_r. destruct w; reflexivity.
  - unfold bind at 1. unfold bind at 1.
    unfold try_except, call_worms, remote, bind at 1.
    destruct (worms (server w) code) as [r s'] eqn:E.
    destruct r; cbn -[for_each worms_exchanges]; rewrite IH; cbn;
      rewrite <- !app_assoc; reflexivity.
Qed.

Lemma lookup_names_run worms codes w :
  lookup_names worms codes w
  = let xs := worms_exchanges worms codes (server w) in
    (Ok (names_frame xs),
     mkWorld (worms_after worms codes (server w))
             (trace w ++ worms_wire xs) (stdout w ++ worms_lines xs)).
Proof. unfold lookup_names. rewrite lookup_names_from. reflexivity. Qed.
End Translation.

Section Merge.
Context {ServerState : Type} `{PandasDtypes}.
Implicit Types (w : World ServerState) (worms : WormsService ServerState)
         (self : DATRASClient ServerState).
Local Open Scope string_scope.

(** The block under [if translate_sps:] in closed form. *)
Lemma translate_species_run self translate_sps df w :
  translate_species self translate_sps df w
  = if translate_sps then
      match worms_client self with
      | None =>
          (Ok df,
           mkWorld (server w) (trace w)
                   (stdout w ++ [Line "WORMS web service not available. Cannot resolve Aphia codes into species"]))
      | Some worms =>
          if existsb (String.eqb "Valid_Aphia") (columns df) then
            let codes := unique (column df "Valid_Aphia") in
            let xs := worms_exchanges worms codes (server w) in
            (merged df (names_frame xs) "Valid_Aphia",
             mkWorld (worms_after worms codes (server w)) (trace w ++ worms_wire xs)
                     ((stdout w ++ [Values codes]) ++ worms_lines xs))
          else (Raise (AttributeError "Valid_Aphia"), w)
      end
    else (Ok df, w).
Proof.
  unfold translate_species. destruct translate_sps; [|reflexivity].
  destruct (worms_client self) as [worms|]; [|reflexivity].
  unfold getattr_column, bind at 1.
  destruct (existsb (String.eqb "Valid_Aphia") (columns df)); [|reflexivity].
  unfold ret at 1. cbv zeta. unfold bind at 1, print at 1. unfold bind at 1.
  rewrite lookup_names_run. cbn [server trace stdout]. cbv zeta. unfold lift.
  destruct (merged _ _ _); reflexivity.
Qed.

End Merge.

(** ** Further properties of the fetch methods *)

Section Exceptions.
Context {ServerState : Type} `{PandasDtypes}.
Implicit Types (w : World ServerState) (self : DATRASClient ServerState)
         (service : DatrasService ServerState).
Local Open Scope string_scope.

Lemma apply_str_strip_ok_inv df cols fields :
  apply str_strip (map (fun c => (c, column df c)) cols) = Ok fields ->
  forall c, In c cols -> str_rejects (column df c) = false.
Proof.
  revert fields. induction cols as [|c0 cols IH]; intros fields; simpl; [tauto|].
  unfold str_strip at 1, str_accessor.
  destruct (str_rejects (column df c0)) eqn:E; [discriminate|].
  destruct (apply str_strip _) as [rest|e]; [|discriminate].
  intros _ c [<-|Hc]; [assumption | eapply IH; eauto].
Qed.

(** The cleanup raises exactly when [.str] rejects an object column of the
    frame. *)
Lemma clean_strings_raises_iff agg e :
  clean_strings agg = Raise e <->
  e = AttributeError "str" /\
  exists c, In c (columns agg) /\ object_dtype (column agg c) = true /\
            str_rejects (column agg c) = true.
Proof.
  split; [apply clean_strings_raises|].
  intros (-> & c & Hc & Ho & Hr).
  destruct (clean_strings agg) as [df|e] eqn:E.
  - exfalso. unfold clean_strings, select_dtypes_object in E.
    destruct (apply str_strip _) as [fields|e] eqn:Ea; [|discriminate].
    assert (Hf : str_rejects (column agg c) = false).
    { eapply apply_str_strip_ok_inv; [exact Ea|]. apply filter_In. auto. }
    congruence.
  - apply clean_strings_raises in E. destruct E as [-> _]. reflexivity.
Qed.

Lemma cleanup_outcome_raises agg e :
  cleanup_outcome agg = Raise e <-> clean_strings agg = Raise e.
Proof.
  unfold cleanup_outcome. destruct (clean_strings agg); split; congruence.
Qed.

(** X1: no failure of a remote call reaches the caller; what a fetch
    method raises comes from pandas, after the calls.  [getHHdata],
    [getSurveyList], [getSurveyYearList] and [getSurveyYearQuarterList]
    raise exactly when the download went ahead and the [.str] accessor
    rejects an object column of the frame they clean, and what they raise
    then is [AttributeError].  So does [getHLdata] when it does not translate
    species or has no WoRMS client; when it translates, it raises
    [AttributeError] for [Valid_Aphia] if the downloaded frame has no such
    column, and otherwise what [pd.merge] raises or, after it, the cleanup
    of the merged frame. *)
Theorem fetch_methods_raise_only_after_the_calls self service w :
  datras_client self = Some service ->
  let cleanup_raises agg e :=
    e = AttributeError "str" /\
    exists c, In c (columns agg) /\ object_dtype (column agg c) = true /\
              str_rejects (column agg c) = true in
  (forall s y q ld e,
      fst (getHHdata self s y q ld w) = Raise e <->
      over_limit ld (Z.of_nat (List.length (hh_calls s y q))) (download_limits self)
      = false /\
      cleanup_raises (received (exchanges service (hh_calls s y q) (server w))) e) /\
  (forall e,
      fst (getSurveyList self w) = Raise e <->
      exists rows,
        fst (service (server w) DatrasGetSurveyList) = Returned rows /\
        cleanup_raises (constructed rows) e) /\
  (forall s e,
      fst (getSurveyYearList self s w) = Raise e <->
      cleanup_raises (received (exchanges service (sy_calls s) (server w))) e) /\
  (forall s y ld e,
      fst (getSurveyYearQuarterList self s y ld w) = Raise e <->
      over_limit ld (Z.of_nat (List.length (syq_calls s y))) (download_limits self)
      = false /\
      cleanup_raises (received (exchanges service (syq_calls s y) (server w))) e) /\
  (forall s y q t ld e,
      fst (getHLdata self s y q t ld w) = Raise e <->
      over_limit ld (Z.of_nat (List.length (hl_calls s y q))) (download_limits self)
      = false /\
      let df := received (exchanges service (hl_calls s y q) (server w)) in
      match (if t then worms_client self else None) with
      | None => cleanup_raises df e
      | Some worms =>
          if existsb (String.eqb "Valid_Aphia") (columns df) then
            let lookups :=
              worms_exchanges worms (unique (column df "Valid_Aphia"))
                              (server_after service (hl_calls s y q) (server w)) in
            match merged df (names_frame lookups) "Valid_Aphia" with
            | Ok agg => cleanup_raises agg e
            | Raise e' => e = e'
            end
          else e = AttributeError "Valid_Aphia"
      end).
Proof.
  intros Hc cleanup_raises. unfold cleanup_raises.
  split; [|split; [|split; [|split]]].
  - intros s y q ld e. rewrite (getHHdata_run self service) by assumption. cbv zeta.
    destruct (over_limit _ _ _).
    + split; [discriminate | intros [[=] _]].
    + rewrite fst_cleaned_and_counted, cleanup_outcome_raises, clean_strings_raises_iff.
      tauto.
  - intros e. rewrite (getSurveyList_run self service) by assumption. cbv zeta.
    destruct (fst (service (server w) DatrasGetSurveyList)) as [| |rows].
    + split; [discriminate | intros (rows & [=] & _)].
    + split; [discriminate | intros (rows & [=] & _)].
    + destruct (clean_strings (constructed rows)) as [df|e'] eqn:E; cbn [fst].
      * split; [discriminate|]. intros (rows' & [= <-] & E').
        apply clean_strings_raises_iff in E'. congruence.
      * split.
        -- intros [= <-]. exists rows. split; [reflexivity|].
           apply clean_strings_raises_iff, E.
        -- intros (rows' & [= <-] & E'). apply clean_strings_raises_iff in E'.
           congruence.
  - intros s e. rewrite (getSurveyYearList_run self service) by assumption. cbv zeta.
    rewrite fst_cleaned_and_counted, cleanup_outcome_raises, clean_strings_raises_iff.
    tauto.
  - intros s y ld e.
    rewrite (getSurveyYearQuarterList_run self service) by assumption. cbv zeta.
    destruct (over_limit _ _ _).
    + split; [discriminate | intros [[=] _]].
    + rewrite fst_cleaned_and_counted, cleanup_outcome_raises, clean_strings_raises_iff.
      tauto.
  - intros s y q t ld e.
    rewrite (getHLdata_run self service) by assumption. cbv zeta.
    destruct (over_limit _ _ _).
    { split; [discriminate | intros [[=] _]]. }
    rewrite translate_species_run. unfold fetched_world. cbn [server trace stdout].
    destruct t.
    2:{ cbn [fst]. rewrite cleanup_outcome_raises, clean_strings_raises_iff. tauto. }
    destruct (worms_client self) as [worms|].
    2:{ cbn [fst]. rewrite cleanup_outcome_raises, clean_strings_raises_iff. tauto. }
    destruct (existsb _ (columns _)).
    2:{ cbn [fst]. split; [intros [= <-]; auto | intros [_ ->]; reflexivity]. }
    cbv zeta. destruct (merged _ _ _) as [agg|e']; cbn [fst].
    + rewrite cleanup_outcome_raises, clean_strings_raises_iff. tauto.
    + split; [intros [= <-]; auto | intros [_ ->]; reflexivity].
Qed.
End Exceptions.

Section Species.
Context {ServerState : Type} `{PandasDtypes}.
Implicit Types (w : World ServerState) (self : DATRASClient ServerState)
         (service : DatrasService ServerState) (worms : WormsService ServerState).
Local Open Scope string_scope.

(** X2: without a WoRMS client, asking [getHLdata] for the species
    translation changes nothing but the output: the result, the requests and
    the remote state are those of the call without translation, and a
    download that went ahead prints one more line, the notice that WoRMS is
    not available. *)
Theorem translation_without_worms_changes_nothing self s y q ld w :
  worms_client self = None ->
  let translated := getHLdata self s y q true ld w in
  let plain := getHLdata self s y q false ld w in
  fst translated = fst plain /\
  trace (snd translated) = trace (snd plain) /\
  server (snd translated) = server (snd plain) /\
  (forall df,
      fst plain = Ok (Some df) ->
      stdout (snd translated)
      = (stdout (snd plain)
         ++ [Line "WORMS web service not available. Cannot resolve Aphia codes into species"])%list).
Proof.
  intros Hw translated plain. unfold translated, plain.
  destruct (datras_client self) as [service|] eqn:Hc.
  - rewrite !(getHLdata_run self service) by assumption. cbv zeta.
    destruct (over_limit _ _ _).
    + repeat split. discriminate.
    + rewrite !translate_species_run, Hw. cbn [fst snd server trace stdout].
      repeat split.
  - unfold getHLdata. rewrite Hc. simpl. repeat split. discriminate.
Qed.

Lemma requests_worms_wire (xs : list (cell * reply string)) :
  requests (worms_wire xs) = map (fun x => Worms (fst x)) xs.
Proof. induction xs as [|x xs IH]; simpl; [reflexivity|]. rewrite IH. reflexivity. Qed.


(** X3: when [getHLdata] translates species, after the DATRAS calls it
    looks up each distinct [Valid_Aphia] code of the downloaded rows once,
    in the order the codes first appear, and nothing else. *)
Theorem one_lookup_per_distinct_code self service worms s y q ld w :
  datras_client self = Some service ->
  worms_client self = Some worms ->
  over_limit ld (Z.of_nat (List.length (hl_calls s y q))) (download_limits self) = false ->
  let df := received (exchanges service (hl_calls s y q) (server w)) in
  In "Valid_Aphia" (columns df) ->
  let codes := unique (column df "Valid_Aphia") in
  requests (trace (snd (getHLdata self s y q true ld w)))
  = (requests (trace w) ++ map Datras (hl_calls s y q) ++ map Worms codes)%list /\
  NoDup codes /\
  (forall v, In v codes <-> exists r, In r df /\ cell_at "Valid_Aphia" r = v).
Proof.
  intros Hc Hw Hpass df Hcol codes. split; [|split].
  - rewrite (getHLdata_run self service) by assumption. cbv zeta. rewrite Hpass.
    rewrite translate_species_run, Hw. fold df.
    apply mem_In in Hcol. rewrite Hcol. cbv zeta.
    destruct (merged _ _ _); unfold fetched_world; cbn [fst snd server trace stdout];
      rewrite !requests_app, requests_wire, requests_worms_wire;
      rewrite <- (map_map fst Datras), exchanges_calls;
      rewrite <- (map_map fst Worms), worms_exchanges_codes;
      rewrite <- app_assoc; reflexivity.
  - apply unique_NoDup.
  - intros v. unfold codes. rewrite unique_In. unfold column. rewrite in_map_iff.
    split; intros (r & A & B); exists r; auto.
Qed.
(** The frame [names] holds one row for each lookup, in order. *)
Lemma names_frame_held (xs : list (cell * reply string)) :
  forall base names,
    held_as base names ->
    held_as (base ++ map name_row xs)%list
            (fold_left (fun names x => appended names [name_row x]) xs names).
Proof.
  induction xs as [|x xs IH]; intros base names Hn; simpl.
  - rewrite app_nil_r. exact Hn.
  - change (base ++ name_row x :: map name_row xs)%list
      with (base ++ [name_row x] ++ map name_row xs)%list.
    rewrite app_assoc. apply IH.
    eapply held_as_trans; [|apply appended_held].
    apply held_as_app; [exact Hn | apply held_as_itself].
Qed.

(** X4: when [getHLdata] translates species, what it hands to [pd.merge]
    with the downloaded frame is a frame of one row for each distinct
    [Valid_Aphia] code, in the order the codes first appear, holding the code
    and, as [Species_Name], what the lookup of the code came back with:
    the name, [None], or ['No data'] when the lookup raised.  It prints the
    count line, the codes, and each code with its name; it returns the
    cleanup of the merged frame, or raises what the merge or the cleanup
    raises. *)
Theorem translation_merges_one_name_per_code self service worms s y q ld w :
  datras_client self = Some service ->
  worms_client self = Some worms ->
  over_limit ld (Z.of_nat (List.length (hl_calls s y q))) (download_limits self) = false ->
  let xs := exchanges service (hl_calls s y q) (server w) in
  let df := received xs in
  In "Valid_Aphia" (columns df) ->
  let codes := unique (column df "Valid_Aphia") in
  let lookups :=
    worms_exchanges worms codes (server_after service (hl_calls s y q) (server w)) in
  let names := names_frame lookups in
  let out := getHLdata self s y q true ld w in
  map fst lookups = codes /\
  held_as (map (fun x => [("Valid_Aphia", fst x);
                          ("Species_Name",
                           match snd x with
                           | Returned n => CStr n
                           | ReturnedNone => CNone
                           | Fault => CStr "No data"
                           end)]) lookups)
          names /\
  fst out = match merged df names "Valid_Aphia" with
            | Ok agg =>
                match clean_strings agg with
                | Ok table => Ok (Some table)
                | Raise e => Raise e
                end
            | Raise e => Raise e
            end /\
  stdout (snd out)
  = (stdout w
     ++ [Line (format_i (successes xs) ++ " out of "
               ++ format_i (Z.of_nat (List.length (hl_calls s y q)))
               ++ " Datasets downloaded");
         Values codes]
     ++ map (fun x => Values [fst x;
                              match snd x with
                              | Returned n => CStr n
                              | ReturnedNone => CNone
                              | Fault => CStr "No data"
                              end]) lookups)%list.
Proof.
  intros Hc Hw Hpass xs df Hcol codes lookups names out.
  split; [apply worms_exchanges_codes|].
  split; [apply (names_frame_held lookups [] []); constructor|].
  unfold out. rewrite (getHLdata_run self service) by assumption. cbv zeta.
  rewrite Hpass. rewrite translate_species_run, Hw. fold xs df.
  apply mem_In in Hcol. rewrite Hcol. cbv zeta.
  unfold fetched_world. cbn [server trace stdout]. fold codes lookups names.
  destruct (merged df names "Valid_Aphia") as [agg|e]; cbn [fst snd stdout].
  - split; [reflexivity|]. unfold count_line. rewrite <- !app_assoc. reflexivity.
  - split; [reflexivity|]. unfold count_line. rewrite <- !app_assoc. reflexivity.
Qed.
End Species.

Section Edges.
Context {ServerState : Type} `{PandasDtypes}.
Implicit Types (w : World ServerState) (self : DATRASClient ServerState)
         (service : DatrasService ServerState).
Local Open Scope string_scope.

Lemma product3_empty {A B C : Type} (a : list A) (b : list B) (c : list C) :
  a = [] \/ b = [] \/ c = [] -> product3 a b c = [].
Proof.
  intros E. apply length_zero_iff_nil. rewrite product3_length.
  destruct E as [->|[->| ->]]; simpl; lia.
Qed.

Lemma product2_empty {A B : Type} (a : list A) (b : list B) :
  a = [] \/ b = [] -> product2 a b = [].
Proof.
  intros E. apply length_zero_iff_nil. rewrite product2_length.
  destruct E as [->| ->]; simpl; lia.
Qed.

(** X5: with an empty list for one of the filters and a limit that is not
    negative, a download method makes no request at all and returns the
    empty table after printing '0 out of 0'. *)
Theorem empty_filter_downloads_nothing self service s y q ld w :
  datras_client self = Some service ->
  0 <= download_limits self ->
  let nothing what :=
    (Ok (Some []),
     mkWorld (server w) (trace w) (stdout w ++ [count_line 0 0 what])) in
  (s = PyList [] \/ y = PyList [] \/ q = PyList [] ->
   getHHdata self s y q ld w = nothing " Datasets downloaded" /\
   getHLdata self s y q false ld w = nothing " Datasets downloaded") /\
  (s = PyList [] \/ y = PyList [] ->
   getSurveyYearQuarterList self s y ld w = nothing " Datasets downloaded") /\
  (s = PyList [] ->
   getSurveyYearList self s w = nothing " surveys downloaded").
Proof.
  intros Hc Hlim nothing. unfold nothing.
  assert (Hpass : over_limit ld 0 (download_limits self) = false)
    by (apply over_limit_within; assumption).
  split; [|split].
  - intros E.
    assert (E3 : product3 (listify s) (listify y) (listify q) = [])
      by (apply product3_empty; destruct E as [->|[->| ->]]; auto).
    rewrite (getHHdata_run self service), (getHLdata_run self service) by assumption.
    unfold hh_calls, hl_calls. rewrite E3. cbn -[over_limit].
    rewrite Hpass, !app_nil_r. split; reflexivity.
  - intros E.
    assert (E2 : product2 (listify s) (listify y) = [])
      by (apply product2_empty; destruct E as [->| ->]; auto).
    rewrite (getSurveyYearQuarterList_run self service) by assumption.
    unfold syq_calls. rewrite E2. cbn -[over_limit].
    rewrite Hpass, !app_nil_r. reflexivity.
  - intros ->. rewrite (getSurveyYearList_run self service) by assumption.
    cbn. rewrite !app_nil_r. reflexivity.
Qed.

(** X6: a limit below one shuts the limited methods: with
    [limit_download=True] a negative [download_limits] refuses every
    download, even one with no combination, and [download_limits] zero
    refuses every download with at least one combination. *)
Theorem limit_below_one_refuses self s y q t w :
  (download_limits self < 0 ->
   refuses w (getHHdata self s y q true w) /\
   refuses w (getHLdata self s y q t true w) /\
   refuses w (getSurveyYearQuarterList self s y true w)) /\
  (download_limits self = 0 ->
   (product3 (listify s) (listify y) (listify q) <> [] ->
    refuses w (getHHdata self s y q true w) /\
    refuses w (getHLdata self s y q t true w)) /\
   (product2 (listify s) (listify y) <> [] ->
    refuses w (getSurveyYearQuarterList self s y true w))).
Proof.
  assert (Hpos : forall {A : Type} (l : list A), l <> [] -> Z.of_nat (List.length l) > 0)
    by (intros A [|a l] Hl; [contradiction | simpl List.length; lia]).
  split.
  - intros Hneg. split; [|split].
    + apply getHHdata_refuses, over_limit_true. lia.
    + apply getHLdata_refuses, over_limit_true. lia.
    + apply getSurveyYearQuarterList_refuses, over_limit_true. lia.
  - intros Hzero. split.
    + intros Hne. split.
      * apply getHHdata_refuses, over_limit_true. rewrite Hzero.
        unfold hh_calls. rewrite length_map. apply Hpos. assumption.
      * apply getHLdata_refuses, over_limit_true. rewrite Hzero.
        unfold hl_calls. rewrite length_map. apply Hpos. assumption.
    + intros Hne. apply getSurveyYearQuarterList_refuses, over_limit_true.
      rewrite Hzero. unfold syq_calls. rewrite length_map. apply Hpos. assumption.
Qed.

Lemma exchanges_length service calls s :
  List.length (exchanges service calls s) = List.length calls.
Proof. rewrite <- (exchanges_calls service calls s) at 2. rewrite length_map. reflexivity. Qed.

Lemma successes_bounds (xs : list (datras_call * reply (list record))) :
  0 <= successes xs <= Z.of_nat (List.length xs).
Proof.
  unfold successes. pose proof (filter_length_le (fun x => counted (snd x)) xs). lia.
Qed.

Lemma successes_none (xs : list (datras_call * reply (list record))) :
  successes xs = 0 -> received xs = [].
Proof.
  intros E. unfold received. apply accumulated_uncounted.
  unfold successes in E. intros x Hx.
  destruct (counted (snd x)) eqn:Ex; [|reflexivity].
  assert (Hin : In x (filter (fun x => counted (snd x)) xs))
    by (apply filter_In; auto).
  destruct (filter (fun x => counted (snd x)) xs); [destruct Hin|].
  simpl List.length in E. lia.
Qed.

Lemma successes_all (xs : list (datras_call * reply (list record))) :
  successes xs = Z.of_nat (List.length xs) ->
  forall x, In x xs -> exists rows, snd x = Returned rows.
Proof.
  unfold successes. intros E x Hx.
  assert (Hall : counted (snd x) = true).
  { revert E x Hx. induction xs as [|a xs IH]; simpl; intros E x Hx; [tauto|].
    pose proof (filter_length_le (fun x => counted (snd x)) xs) as Hle.
    destruct (counted (snd a)) eqn:Ea; simpl List.length in E; [|lia].
    destruct Hx as [<-|Hx]; [assumption|]. apply IH; [lia | assumption]. }
  destruct (snd x); simpl in Hall; try discriminate.
  eexists; reflexivity.
Qed.

Lemma reports_count_run service calls what w :
  reports_count service calls what w
    (cleaned_and_counted (received (exchanges service calls (server w)))
                         (successes (exchanges service calls (server w)))
                         (Z.of_nat (List.length calls)) what
                         (fetched_world service calls w)).
Proof.
  unfold reports_count, cleaned_and_counted. cbv zeta. intros df.
  destruct (clean_strings _) as [d|e] eqn:E; cbn [fst snd stdout]; [|discriminate].
  intros [= <-].
  exists (successes (exchanges service calls (server w))).
  pose proof (successes_bounds (exchanges service calls (server w))) as Hb.
  rewrite exchanges_length in Hb.
  split; [reflexivity|]. split; [assumption|]. split.
  - intros E0. rewrite (successes_none _ E0) in E. cbn in E. congruence.
  - intros E0. apply successes_all. rewrite exchanges_length. assumption.
Qed.

(** X7: the count line of a download that returns a table tells the
    truth: it is the last thing printed, 'k out of n' has [n] the number of
    combinations and [k] between 0 and [n]; when [k] is 0 the returned table
    is empty, and when [k] is [n] every call came back with rows.  A
    download that went ahead returns a table unless the cleanup raises, and
    then prints nothing. *)
Theorem count_line_reports_the_download self service s y q ld w :
  datras_client self = Some service ->
  let ends calls what out :=
    reports_count service calls what w out /\
    fst out = cleanup_outcome (received (exchanges service calls (server w))) /\
    (forall e, fst out = Raise e -> stdout (snd out) = stdout w) in
  (over_limit ld (Z.of_nat (List.length (hh_calls s y q))) (download_limits self) = false ->
   ends (hh_calls s y q) " Datasets downloaded" (getHHdata self s y q ld w)) /\
  (over_limit ld (Z.of_nat (List.length (syq_calls s y))) (download_limits self) = false ->
   ends (syq_calls s y) " Datasets downloaded"
        (getSurveyYearQuarterList self s y ld w)) /\
  ends (sy_calls s) " surveys downloaded" (getSurveyYearList self s w).
Proof.
  intros Hc ends.
  assert (Hends : forall calls what,
             ends calls what
                  (cleaned_and_counted (received (exchanges service calls (server w)))
                                       (successes (exchanges service calls (server w)))
                                       (Z.of_nat (List.length calls)) what
                                       (fetched_world service calls w))).
  { intros calls what. split; [apply reports_count_run|].
    split; [apply fst_cleaned_and_counted|].
    intros e. unfold cleaned_and_counted.
    destruct (clean_strings _); cbn; [discriminate | reflexivity]. }
  split; [|split].
  - intros Hpass. rewrite (getHHdata_run self service) by assumption. cbv zeta.
    rewrite Hpass. apply Hends.
  - intros Hpass. rewrite (getSurveyYearQuarterList_run self service) by assumption.
    cbv zeta. rewrite Hpass. apply Hends.
  - rewrite (getSurveyYearList_run self service) by assumption. apply Hends.
Qed.
End Edges.

Section Siblings.
Context {ServerState : Type} `{PandasDtypes}.
Implicit Types (w : World ServerState) (self : DATRASClient ServerState)
         (service : DatrasService ServerState).
Local Open Scope string_scope.

Lemma in_product2 {A B : Type} (a : list A) (b : list B) x y :
  In (x, y) (product2 a b) <-> In x a /\ In y b.
Proof.
  unfold product2. rewrite in_flat_map. split.
  - intros (x' & Hx & Hin). apply in_map_iff in Hin.
    destruct Hin as (y' & [= -> ->] & Hy). auto.
  - intros (Hx & Hy). exists x. split; [assumption|]. apply in_map_iff. exists y. auto.
Qed.

Lemma requests_datras_wire service calls (s0 : ServerState) :
  requests (wire (exchanges service calls s0)) = map Datras calls.
Proof. rewrite requests_wire, <- (map_map fst Datras), exchanges_calls. reflexivity. Qed.

(** X8: [getSurveyYearList] knows no download limit: whatever
    [download_limits] is and however many surveys are asked for, it requests
    each survey once, in order, and never comes back with [None]: the frame
    it has after the loop holds the concatenation of what came back, and the
    method ends as the cleanup of that frame ends, with the cleaned table or
    with what the cleanup raised. *)
Theorem survey_year_list_is_never_limited self service survey w :
  datras_client self = Some service ->
  let out := getSurveyYearList self survey w in
  let xs := exchanges service (sy_calls survey) (server w) in
  requests (trace (snd out))
  = (requests (trace w)
     ++ map (fun s => Datras (DatrasGetSurveyYearList s)) (listify survey))%list /\
  held_as (List.concat (responses xs)) (received xs) /\
  fst out = match clean_strings (received xs) with
            | Ok df => Ok (Some df)
            | Raise e => Raise e
            end /\
  (forall df, fst out = Ok (Some df) -> cleaned (received xs) df).
Proof.
  intros Hc out xs. unfold out.
  rewrite (getSurveyYearList_run self service) by assumption. cbv zeta.
  rewrite trace_cleaned_and_counted, fst_cleaned_and_counted.
  split; [|split; [apply received_held|split; [reflexivity|]]].
  - unfold fetched_world. cbn [trace].
    rewrite requests_app, requests_datras_wire. unfold sy_calls. rewrite map_map.
    reflexivity.
  - intros df E. apply clean_strings_cleaned, cleanup_outcome_table, E.
Qed.

(** X9: when they pass the limit check, [getSurveyYearQuarterList] requests
    exactly the pairs of the product survey x year, and [getHLdata] without
    species translation exactly the triples of survey x year x quarter, one
    request per element and in the order of the product; every pair of a
    survey and a year is requested. *)
Theorem one_call_per_combination_in_siblings self service s y q ld w :
  datras_client self = Some service ->
  (over_limit ld (Z.of_nat (List.length (product2 (listify s) (listify y))))
              (download_limits self) = false ->
   requests (trace (snd (getSurveyYearQuarterList self s y ld w)))
   = (requests (trace w)
      ++ map (fun d => let '(a, b) := d in Datras (DatrasGetSurveyYearQuarterList a b))
             (product2 (listify s) (listify y)))%list /\
   (forall a b, In a (listify s) -> In b (listify y) ->
                In (Datras (DatrasGetSurveyYearQuarterList a b))
                   (requests (trace (snd (getSurveyYearQuarterList self s y ld w)))))) /\
  (over_limit ld (Z.of_nat (List.length (product3 (listify s) (listify y) (listify q))))
              (download_limits self) = false ->
   requests (trace (snd (getHLdata self s y q false ld w)))
   = (requests (trace w)
      ++ map (fun d => let '(a, b, c) := d in Datras (DatrasGetHLdata a b c))
             (product3 (listify s) (listify y) (listify q)))%list).
Proof.
  intros Hc. split.
  - intros Hpass.
    assert (E : requests (trace (snd (getSurveyYearQuarterList self s y ld w)))
                = (requests (trace w)
                   ++ map (fun d => let '(a, b) := d in
                                    Datras (DatrasGetSurveyYearQuarterList a b))
                          (product2 (listify s) (listify y)))%list).
    { rewrite (getSurveyYearQuarterList_run self service) by assumption.
      unfold syq_calls. rewrite length_map, Hpass.
      rewrite trace_cleaned_and_counted. unfold fetched_world. cbn [trace].
      rewrite requests_app, requests_datras_wire, map_map.
      f_equal. apply map_ext. intros [a b]. reflexivity. }
    split; [exact E|]. intros a b Ha Hb. rewrite E. apply in_or_app. right.
    apply in_map_iff. exists (a, b). split; [reflexivity|]. apply in_product2. auto.
  - intros Hpass. rewrite (getHLdata_run self service) by assumption.
    unfold hl_calls. rewrite length_map, Hpass. cbv zeta.
    rewrite translate_species_run. unfold fetched_world. cbn [fst snd trace].
    rewrite requests_app, requests_datras_wire, map_map.
    f_equal. apply map_ext. intros [[a b] c]. reflexivity.
Qed.

(** X10: [getSurveyList] makes exactly one request.  If it raises, the
    method prints 'Cannot download survey list' and returns [None].  If it
    comes back with [None], the method returns the empty table and prints
    'Survey list downloaded'.  If it comes back with rows, the method cleans
    the frame pandas builds from them: it returns the cleaned table and
    prints 'Survey list downloaded', or raises what the cleanup raised and
    prints nothing. *)
Theorem survey_list_makes_one_request self service w :
  datras_client self = Some service ->
  let out := getSurveyList self w in
  let r := fst (service (server w) DatrasGetSurveyList) in
  requests (trace (snd out)) = (requests (trace w) ++ [Datras DatrasGetSurveyList])%list /\
  server (snd out) = snd (service (server w) DatrasGetSurveyList) /\
  (r = Fault ->
   fst out = Ok None /\
   stdout (snd out) = (stdout w ++ [Line "Cannot download survey list"])%list) /\
  (r = ReturnedNone ->
   fst out = Ok (Some []) /\
   stdout (snd out) = (stdout w ++ [Line "Survey list downloaded"])%list) /\
  (forall rows,
      r = Returned rows ->
      held_as rows (constructed rows) /\
      match clean_strings (constructed rows) with
      | Ok df =>
          fst out = Ok (Some df) /\ cleaned (constructed rows) df /\
          stdout (snd out) = (stdout w ++ [Line "Survey list downloaded"])%list
      | Raise e => fst out = Raise e /\ stdout (snd out) = stdout w
      end).
Proof.
  intros Hc out r. unfold out.
  rewrite (getSurveyList_run self service) by assumption. cbv zeta. fold r.
  destruct r as [| |rows0].
  - cbn [fst snd server trace stdout]. rewrite requests_app.
    repeat split; try discriminate; reflexivity.
  - cbn. rewrite requests_app.
    repeat split; try discriminate; reflexivity.
  - destruct (clean_strings (constructed rows0)) as [df0|e0] eqn:E0;
      cbn [fst snd server trace stdout]; rewrite requests_app;
      (split; [reflexivity|]); (split; [reflexivity|]);
      (split; [discriminate|]); (split; [discriminate|]);
      intros rows [= <-]; (split; [apply constructed_held|]); rewrite E0.
    + repeat split. apply clean_strings_cleaned, E0.
    + split; reflexivity.
Qed.

(** X11: [__init__] constructs the two clients independently and keeps the
    limit: each client is set exactly when its own constructor did not
    raise.  Setting the DATRAS client again leaves the WoRMS client and the
    limit alone, and a url whose construction raises discards the DATRAS
    client that was there. *)
Theorem init_constructs_clients_independently
        (DatrasClient : string -> result (DatrasService ServerState))
        (WormsClient : string -> result (WormsService ServerState))
        (datras_url worms_url : string) (limits : Z) :
  let self := init DatrasClient WormsClient datras_url worms_url limits in
  download_limits self = limits /\
  datras_client self
  = match DatrasClient datras_url with Ok c => Some c | Raise _ => None end /\
  worms_client self
  = match WormsClient worms_url with Ok c => Some c | Raise _ => None end /\
  (forall url,
      worms_client (setDatrasClient DatrasClient self url) = worms_client self /\
      download_limits (setDatrasClient DatrasClient self url) = limits) /\
  (forall url e,
      DatrasClient url = Raise e ->
      datras_client (setDatrasClient DatrasClient self url) = None).
Proof.
  unfold init, setWormsClient, setDatrasClient. cbv zeta.
  split; [|split; [|split; [|split]]].
  - destruct (WormsClient worms_url), (DatrasClient datras_url); reflexivity.
  - destruct (WormsClient worms_url), (DatrasClient datras_url); reflexivity.
  - destruct (WormsClient worms_url), (DatrasClient datras_url); reflexivity.
  - intros url.
    destruct (WormsClient worms_url), (DatrasClient datras_url), (DatrasClient url);
      split; reflexivity.
  - intros url e E. rewrite E. reflexivity.
Qed.
End Siblings.

Section CleanupAgain.
Context `{PandasDtypes}.

Lemma lstrip_fixed s : head_space s = false -> lstrip s = s.
Proof. destruct s as [|a s]; simpl; [reflexivity|]. intros ->. reflexivity. Qed.

Lemma rstrip_fixed s : last_space s = false -> rstrip s = s.
Proof.
  induction s as [|a s IH]; simpl; [reflexivity|].
  destruct s as [|b s].
  - simpl. intros ->. reflexivity.
  - intros Hl. rewrite (IH Hl). reflexivity.
Qed.

(** Stripping what is stripped changes nothing. *)
Lemma strip_idempotent s : strip (strip s) = strip s.
Proof.
  destruct (strip_spec s) as (_ & Hhead & Hlast).
  unfold strip at 1. rewrite (lstrip_fixed _ Hhead). apply rstrip_fixed, Hlast.
Qed.

Lemma strip_cell_idempotent v : strip_cell (strip_cell v) = strip_cell v.
Proof. destruct v; simpl; try reflexivity. rewrite strip_idempotent. reflexivity. Qed.

Lemma Forall2_map_eq {A B C : Type} (R : A -> B -> Prop) (f : B -> C) (g : A -> C)
      (l : list A) (l' : list B) :
  Forall2 R l l' -> (forall a b, R a b -> f b = g a) -> map f l' = map g l.
Proof. induction 1; intros Hfg; simpl; [reflexivity|]. f_equal; auto. Qed.

(** A column after the cleanup: stripped if it was an object column, as it
    was if not. *)
Lemma column_clean_strings df d c :
  clean_strings df = Ok d ->
  column d c
  = if object_dtype (column df c) then map strip_cell (column df c) else column df c.
Proof.
  intros Hd. apply clean_strings_cleaned in Hd.
  unfold column. rewrite map_map.
  destruct (object_dtype (map (cell_at c) df)) eqn:E.
  - apply (Forall2_map_eq _ _ _ _ _ Hd).
    intros r r' Hr. apply (Hr c). exact E.
  - apply (Forall2_map_eq _ _ _ _ _ Hd).
    intros r r' Hr. apply (Hr c). exact E.
Qed.

(** X12: the string cleanup is idempotent: when cleaning a table and
    cleaning the cleaned table again both go through, the second cleanup
    leaves every column as the first left it, whatever dtypes pandas gives
    the columns. *)
Theorem cleanup_is_idempotent df once twice c :
  clean_strings df = Ok once ->
  clean_strings once = Ok twice ->
  column twice c = column once c.
Proof.
  intros H1 H2.
  rewrite (column_clean_strings once twice c H2).
  destruct (object_dtype (column once c)) eqn:E2; [|reflexivity].
  rewrite (column_clean_strings df once c H1) in *.
  destruct (object_dtype (column df c)) eqn:E1; [|congruence].
  rewrite map_map. apply map_ext. apply strip_cell_idempotent.
Qed.

Lemma filter_none {A : Type} (f : A -> bool) (l : list A) :
  (forall a, In a l -> f a = false) -> filter f l = [].
Proof.
  induction l as [|a l IH]; simpl; [reflexivity|]. intros Hf.
  rewrite (Hf a) by auto. apply IH. auto.
Qed.

(** X13: when the string cleanup goes through, the table it gives has as
    many rows as the one it was given; and on a table that has no object
    column (the empty table among them) it goes through and gives the table
    exactly as it was. *)
Theorem cleanup_keeps_rows_and_plain_tables df :
  (forall d, clean_strings df = Ok d -> List.length d = List.length df) /\
  ((forall c, In c (columns df) -> object_dtype (column df c) = false) ->
   clean_strings df = Ok df).
Proof.
  split.
  - intros d Hd. symmetry. eapply Forall2_length. apply clean_strings_cleaned, Hd.
  - intros Hplain. unfold clean_strings, select_dtypes_object.
    rewrite filter_none by exact Hplain. reflexivity.
Qed.
End CleanupAgain.

Section Composition.
Context {ServerState : Type} `{PandasDtypes}.
Implicit Types (w : World ServerState) (self : DATRASClient ServerState)
         (service : DatrasService ServerState).

Lemma server_after_app service l1 l2 (s0 : ServerState) :
  server_after service (l1 ++ l2) s0
  = server_after service l2 (server_after service l1 s0).
Proof. revert s0; induction l1 as [|c l1 IH]; intros s0; simpl; auto. Qed.

Lemma wire_app (xs ys : list (datras_call * reply (list record))) :
  wire (xs ++ ys) = wire xs ++ wire ys.
Proof. unfold wire. apply flat_map_app. Qed.

(** X14: one call of [getSurveyYearList] for two lists of surveys put
    together does to the remote end what two calls, one list after the
    other, do: the same requests in the same order with the same responses,
    and the same final remote state. *)
Theorem survey_year_list_of_joined_lists self service l1 l2 w :
  datras_client self = Some service ->
  let first := getSurveyYearList self (PyList l1) w in
  let second := getSurveyYearList self (PyList l2) (snd first) in
  let joined := getSurveyYearList self (PyList (l1 ++ l2)) w in
  trace (snd joined) = trace (snd second) /\
  server (snd joined) = server (snd second).
Proof.
  intros Hc first second joined. unfold joined, second, first.
  rewrite !(getSurveyYearList_run self service) by assumption. cbv zeta.
  rewrite !trace_cleaned_and_counted, !server_cleaned_and_counted.
  unfold sy_calls, fetched_world. rewrite !listify_list, map_app.
  cbn [server trace].
  rewrite !trace_cleaned_and_counted, !server_cleaned_and_counted.
  cbn [server trace].
  rewrite exchanges_app, server_after_app, wire_app, app_assoc.
  split; reflexivity.
Qed.
End Composition.

(** ** The properties on the sample setting *)

Import Sample.
Local Open Scope string_scope.

Lemma unset_client_prints_and_returns_none_witness :
  datras_client unset_client = None /\
  getHHdata unset_client sp_arsa (PyInt 2010) (PyInt 1) true start
  = (Ok None, mkWorld 0%nat [] [Line "DATRAS client not set"]).
Proof.
  split; [reflexivity|].
  apply (proj1 (unset_client_prints_and_returns_none unset_client start eq_refl)).
Defined.

Lemma scalar_is_singleton_list_witness :
  (isinstance_list sp_arsa = false /\ isinstance_list (PyInt 2010) = false
   /\ isinstance_list (PyInt 1) = false) /\
  getHHdata client sp_arsa (PyInt 2010) (PyInt 1) true start
  = getHHdata client (PyList [sp_arsa]) (PyList [PyInt 2010]) (PyList [PyInt 1]) true start.
Proof.
  split; [repeat split|].
  apply (proj1 (scalar_is_singleton_list client sp_arsa (PyInt 2010) (PyInt 1) start
                  eq_refl eq_refl eq_refl)).
Defined.

Lemma one_call_per_combination_witness :
  (datras_client client = Some datras /\
   over_limit true
     (Z.of_nat (List.length (product3 (listify sp_arsa) (listify (years 2010 2))
                                      (listify (PyInt 1)))))
     (download_limits client) = false) /\
  requests (trace (snd (getHHdata client sp_arsa (years 2010 2) (PyInt 1) true start)))
  = [Datras (DatrasGetHHdata sp_arsa (PyInt 2010) (PyInt 1));
     Datras (DatrasGetHHdata sp_arsa (PyInt 2011) (PyInt 1))].
Proof.
  split; [split; reflexivity|].
  apply (proj1 (one_call_per_combination client datras sp_arsa (years 2010 2) (PyInt 1)
                  true start eq_refl eq_refl)).
Defined.

Lemma limit_refuses_else_set_client_downloads_witness :
  refuses start (getHHdata client sp_arsa (years 2010 6) (PyInt 1) true start) /\
  (datras_client client = Some datras /\
   downloads datras (hh_calls sp_arsa (years 2010 2) (PyInt 1)) start
             (getHHdata client sp_arsa (years 2010 2) (PyInt 1) true start)).
Proof.
  split; [|split; [reflexivity|]].
  - refine (proj1 (proj1 (limit_refuses_else_set_client_downloads
                            client sp_arsa (years 2010 6) (PyInt 1) false start) _)).
    reflexivity.
  - destruct (proj2 (proj2 (limit_refuses_else_set_client_downloads
                              client sp_arsa (years 2010 2) (PyInt 1) false start))
                    datras eq_refl) as [Hwithin _].
    refine (proj1 (Hwithin _)). vm_compute. discriminate.
Defined.

Lemma limit_is_strict_and_conditional_witness :
  datras_client client = Some datras /\
  downloads datras (hh_calls sp_arsa (years 2010 5) (PyInt 1)) start
            (getHHdata client sp_arsa (years 2010 5) (PyInt 1) true start) /\
  downloads datras (hh_calls sp_arsa (years 2010 6) (PyInt 1)) start
            (getHHdata client sp_arsa (years 2010 6) (PyInt 1) false start).
Proof.
  split; [reflexivity|]. split.
  - refine (proj1 (proj1 (limit_is_strict_and_conditional
                            client datras sp_arsa (years 2010 5) (PyInt 1) false true
                            start eq_refl) _)).
    reflexivity.
  - exact (proj1 (proj1 (proj2 (proj2 (limit_is_strict_and_conditional
                                         client datras sp_arsa (years 2010 6) (PyInt 1)
                                         false true start eq_refl))))).
Defined.

Lemma datasets_number_is_product_of_lengths_witness :
  datras_client client = Some datras /\
  stdout (snd (getHHdata client (PyList [sp_arsa; PyStr "IBTS"]) (years 2010 2)
                         (PyInt 1) true start))
  = [Line "1 out of 4 Datasets downloaded"] /\
  getHHdata client (PyList [sp_arsa; PyStr "IBTS"]) (years 2010 3) (PyInt 1) true start
  = (Ok None,
     mkWorld 0%nat []
             [Line "Data download is limited to 5 datasets.";
              Line "Your are trying to download 6 datasets. Exiting"]).
Proof.
  split; [reflexivity|]. split.
  - exact (proj1 (proj1 (proj2 (datasets_number_is_product_of_lengths
                                  client datras (PyList [sp_arsa; PyStr "IBTS"])
                                  (years 2010 2) (PyInt 1) false true start eq_refl)))).
  - exact (proj1 (proj1 (proj2 (datasets_number_is_product_of_lengths
                                  client datras (PyList [sp_arsa; PyStr "IBTS"])
                                  (years 2010 3) (PyInt 1) false true start eq_refl)))).
Defined.

Lemma returned_table_is_cleaned_concatenation_witness :
  (datras_client client = Some datras /\
   over_limit true (Z.of_nat (List.length (hh_calls sp_arsa (years 2010 2) (PyInt 1))))
              (download_limits client) = false) /\
  fst (getHHdata client sp_arsa (years 2010 2) (PyInt 1) true start)
  = Ok (Some [haul "SP-ARSA" 2010 1 126436; haul "SP-ARSA" 2010 1 127160]) /\
  map fst (exchanges datras (hh_calls sp_arsa (years 2010 2) (PyInt 1)) (server start))
  = [DatrasGetHHdata sp_arsa (PyInt 2010) (PyInt 1);
     DatrasGetHHdata sp_arsa (PyInt 2011) (PyInt 1)].
Proof.
  split; [split; reflexivity|]. split.
  - exact (proj1 (proj2 (returned_table_is_cleaned_concatenation
                           client datras sp_arsa (years 2010 2) (PyInt 1) true start
                           eq_refl eq_refl))).
  - exact (proj1 (proj2 (proj2 (proj2 (returned_table_is_cleaned_concatenation
                                         client datras sp_arsa (years 2010 2) (PyInt 1)
                                         true start eq_refl eq_refl))))).
Defined.

Lemma cleanup_strips_object_columns_witness :
  (datras_client client = Some datras /\
   fst (getHHdata client sp_arsa (PyInt 2010) (PyInt 1) true start)
   = Ok (Some [haul "SP-ARSA" 2010 1 126436; haul "SP-ARSA" 2010 1 127160])) /\
  cleaned (received (exchanges datras (hh_calls sp_arsa (PyInt 2010) (PyInt 1))
                               (server start)))
          [haul "SP-ARSA" 2010 1 126436; haul "SP-ARSA" 2010 1 127160].
Proof.
  split; [split; reflexivity|].
  exact (proj1 (proj2 (cleanup_strips_object_columns client datras start eq_refl))
               sp_arsa (PyInt 2010) (PyInt 1) true _ eq_refl).
Defined.

(** C1, as stated, fails: with the DATRAS client unset, one combination
    against a limit of five, [getHHdata] with [limit_download=True] does not
    download: it returns [None] without any request. *)
Lemma unset_client_within_limit_does_not_download :
  Z.of_nat (List.length (product3 (listify sp_arsa) (listify (PyInt 2010))
                                  (listify (PyInt 1))))
  <= download_limits unset_client /\
  getHHdata unset_client sp_arsa (PyInt 2010) (PyInt 1) true start
  = (Ok None, mkWorld 0%nat [] [Line "DATRAS client not set"]) /\
  forall service,
    ~ downloads service (hh_calls sp_arsa (PyInt 2010) (PyInt 1)) start
        (getHHdata unset_client sp_arsa (PyInt 2010) (PyInt 1) true start).
Proof.
  split; [vm_compute; discriminate|]. split; [reflexivity|].
  intros service [Hsome _]. apply Hsome. reflexivity.
Qed.

(** C9, as stated, fails: with the DATRAS client unset, neither five
    combinations against a limit of five nor [limit_download=False] make
    [getHHdata] download. *)
Lemma unset_client_at_limit_does_not_download :
  Z.of_nat (List.length (product3 (listify sp_arsa) (listify (years 2010 5))
                                  (listify (PyInt 1))))
  = download_limits unset_client /\
  forall service limit_download,
    ~ downloads service (hh_calls sp_arsa (years 2010 5) (PyInt 1)) start
        (getHHdata unset_client sp_arsa (years 2010 5) (PyInt 1) limit_download start).
Proof.
  split; [reflexivity|].
  intros service limit_download [Hsome _]. apply Hsome. reflexivity.
Qed.

(** C2, as stated, fails: the service answers the one combination with two
    rows whose survey names are padded; the table [getHHdata] returns holds
    the stripped names, so it is not the concatenation of the responses. *)
Lemma returned_table_is_not_the_raw_concatenation :
  let calls := hh_calls sp_arsa (PyInt 2010) (PyInt 1) in
  datras_client client = Some datras /\
  over_limit true (Z.of_nat (List.length calls)) (download_limits client) = false /\
  List.concat (responses (exchanges datras calls (server start)))
  = [haul "SP-ARSA  " 2010 1 126436; haul " SP-ARSA" 2010 1 127160] /\
  fst (getHHdata client sp_arsa (PyInt 2010) (PyInt 1) true start)
  = Ok (Some [haul "SP-ARSA" 2010 1 126436; haul "SP-ARSA" 2010 1 127160]) /\
  fst (getHHdata client sp_arsa (PyInt 2010) (PyInt 1) true start)
  <> Ok (Some (List.concat (responses (exchanges datras calls (server start))))).
Proof.
  repeat split. vm_compute. discriminate.
Qed.

(** C4 (defect of the code): [getHLdata] with species translation, for one
    combination whose call raises: the exception of the call is swallowed
    and '0 out of 1' printed, but then [downloaded_data.Valid_Aphia] raises
    on the empty table and the caller gets [AttributeError], not the table.
    Without translation, and in [getHHdata], the same failed call ends in the
    empty table being returned. *)
Theorem getHLdata_translation_raises_after_failed_fetch :
  let failed :=
    mkWorld 1%nat
            [Request (Datras (DatrasGetHLdata (PyStr "IBTS") (PyInt 2010) (PyInt 1)));
             Response Failed]
            [Line "0 out of 1 Datasets downloaded"] in
  getHLdata client (PyStr "IBTS") (PyInt 2010) (PyInt 1) true true start
  = (Raise (AttributeError "Valid_Aphia"), failed) /\
  getHLdata client (PyStr "IBTS") (PyInt 2010) (PyInt 1) false true start
  = (Ok (Some []), failed) /\
  getHHdata client (PyStr "IBTS") (PyInt 2010) (PyInt 1) true start
  = (Ok (Some []),
     mkWorld 1%nat
             [Request (Datras (DatrasGetHHdata (PyStr "IBTS") (PyInt 2010) (PyInt 1)));
              Response Failed]
             [Line "0 out of 1 Datasets downloaded"]).
Proof. repeat split. Qed.


(** ** The further properties on the sample setting *)

Lemma fetch_methods_raise_only_after_the_calls_witness :
  datras_client far_client = Some far_datras /\
  getHHdata far_client sp_arsa (PyInt 2010) (PyInt 1) true start
  = (Raise (AttributeError "str"),
     mkWorld 1%nat
             [Request (Datras (DatrasGetHHdata sp_arsa (PyInt 2010) (PyInt 1)));
              Response CameBack]
             []) /\
  exists c,
    In c (columns [[("Year", CInt (2 ^ 64))]]) /\
    object_dtype (column [[("Year", CInt (2 ^ 64))]] c) = true /\
    str_rejects (column [[("Year", CInt (2 ^ 64))]] c) = true.
Proof.
  split; [reflexivity|]. split; [reflexivity|].
  exact (proj2 (proj2 (proj1 (proj1 (fetch_methods_raise_only_after_the_calls
                                       far_client far_datras start eq_refl)
                                    sp_arsa (PyInt 2010) (PyInt 1) true
                                    (AttributeError "str"))
                             eq_refl))).
Defined.

Lemma translation_without_worms_changes_nothing_witness :
  worms_client no_worms_client = None /\
  fst (getHLdata no_worms_client sp_arsa (PyInt 2010) (PyInt 1) true true start)
  = fst (getHLdata no_worms_client sp_arsa (PyInt 2010) (PyInt 1) false true start).
Proof.
  split; [reflexivity|].
  exact (proj1 (translation_without_worms_changes_nothing
                  no_worms_client sp_arsa (PyInt 2010) (PyInt 1) true start eq_refl)).
Defined.

Lemma one_lookup_per_distinct_code_witness :
  (datras_client client = Some datras /\ worms_client client = Some worms /\
   over_limit true (Z.of_nat (List.length (hl_calls sp_arsa (PyInt 2010) (PyInt 1))))
              (download_limits client) = false /\
   In "Valid_Aphia"
      (columns (received (exchanges datras (hl_calls sp_arsa (PyInt 2010) (PyInt 1))
                                    (server start))))) /\
  requests (trace (snd (getHLdata client sp_arsa (PyInt 2010) (PyInt 1) true true start)))
  = [Datras (DatrasGetHLdata sp_arsa (PyInt 2010) (PyInt 1));
     Worms (CInt 126436); Worms (CInt 127160)].
Proof.
  assert (Hcol : In "Valid_Aphia"
                    (columns (received (exchanges datras
                                          (hl_calls sp_arsa (PyInt 2010) (PyInt 1))
                                          (server start)))))
    by (apply mem_In; reflexivity).
  split; [repeat split; exact Hcol|].
  exact (proj1 (one_lookup_per_distinct_code
                  client datras worms sp_arsa (PyInt 2010) (PyInt 1) true start
                  eq_refl eq_refl eq_refl Hcol)).
Defined.

Lemma translation_merges_one_name_per_code_witness :
  (datras_client client = Some datras /\ worms_client client = Some worms /\
   over_limit true (Z.of_nat (List.length (hl_calls sp_arsa (PyInt 2010) (PyInt 1))))
              (download_limits client) = false /\
   In "Valid_Aphia"
      (columns (received (exchanges datras (hl_calls sp_arsa (PyInt 2010) (PyInt 1))
                                    (server start))))) /\
  fst (getHLdata client sp_arsa (PyInt 2010) (PyInt 1) true true start)
  = Ok (Some [[("Survey", CStr "SP-ARSA"); ("Year", CInt 2010); ("Quarter", CInt 1);
               ("Valid_Aphia", CInt 126436); ("Species_Name", CStr "Gadus morhua")];
              [("Survey", CStr "SP-ARSA"); ("Year", CInt 2010); ("Quarter", CInt 1);
               ("Valid_Aphia", CInt 127160); ("Species_Name", CNone)]]) /\
  stdout (snd (getHLdata client sp_arsa (PyInt 2010) (PyInt 1) true true start))
  = [Line "1 out of 1 Datasets downloaded";
     Values [CInt 126436; CInt 127160];
     Values [CInt 126436; CStr " Gadus morhua"];
     Values [CInt 127160; CNone]].
Proof.
  assert (Hcol : In "Valid_Aphia"
                    (columns (received (exchanges datras
                                          (hl_calls sp_arsa (PyInt 2010) (PyInt 1))
                                          (server start)))))
    by (apply mem_In; reflexivity).
  split; [repeat split; exact Hcol|].
  exact (proj2 (proj2 (translation_merges_one_name_per_code
                         client datras worms sp_arsa (PyInt 2010) (PyInt 1) true start
                         eq_refl eq_refl eq_refl Hcol))).
Defined.

Lemma empty_filter_downloads_nothing_witness :
  (datras_client client = Some datras /\ 0 <= download_limits client) /\
  getHHdata client (PyList []) (years 2010 9) (PyInt 1) true start
  = (Ok (Some []),
     mkWorld 0%nat [] [count_line 0 0 " Datasets downloaded"]).
Proof.
  split; [split; [reflexivity | discriminate]|].
  refine (proj1 (proj1 (empty_filter_downloads_nothing
                          client datras (PyList []) (years 2010 9) (PyInt 1) true start
                          eq_refl _) _)).
  - discriminate.
  - left; reflexivity.
Defined.

Lemma limit_below_one_refuses_witness :
  download_limits negative_client < 0 /\
  refuses start (getHHdata negative_client (PyList []) (PyInt 2010) (PyInt 1) true start).
Proof.
  split; [reflexivity|].
  refine (proj1 (proj1 (limit_below_one_refuses
                          negative_client (PyList []) (PyInt 2010) (PyInt 1) false start)
                       _)).
  reflexivity.
Defined.

Lemma count_line_reports_the_download_witness :
  (datras_client client = Some datras /\
   over_limit true (Z.of_nat (List.length (hh_calls sp_arsa (years 2010 2) (PyInt 1))))
              (download_limits client) = false) /\
  reports_count datras (hh_calls sp_arsa (years 2010 2) (PyInt 1))
                " Datasets downloaded" start
                (getHHdata client sp_arsa (years 2010 2) (PyInt 1) true start) /\
  stdout (snd (getHHdata client sp_arsa (years 2010 2) (PyInt 1) true start))
  = [Line "1 out of 2 Datasets downloaded"].
Proof.
  split; [split; reflexivity|]. split; [|reflexivity].
  exact (proj1 (proj1 (count_line_reports_the_download
                         client datras sp_arsa (years 2010 2) (PyInt 1) true start
                         eq_refl)
                      eq_refl)).
Defined.

Lemma survey_year_list_is_never_limited_witness :
  datras_client zero_client = Some datras /\
  requests (trace (snd (getSurveyYearList zero_client
                                           (PyList [sp_arsa; PyStr "IBTS"]) start)))
  = [Datras (DatrasGetSurveyYearList sp_arsa);
     Datras (DatrasGetSurveyYearList (PyStr "IBTS"))].
Proof.
  split; [reflexivity|].
  exact (proj1 (survey_year_list_is_never_limited
                  zero_client datras (PyList [sp_arsa; PyStr "IBTS"]) start eq_refl)).
Defined.

Lemma one_call_per_combination_in_siblings_witness :
  (datras_client client = Some datras /\
   over_limit true
     (Z.of_nat (List.length (product2 (listify sp_arsa) (listify (years 2010 2)))))
     (download_limits client) = false) /\
  requests (trace (snd (getSurveyYearQuarterList client sp_arsa (years 2010 2) true
                                                  start)))
  = [Datras (DatrasGetSurveyYearQuarterList sp_arsa (PyInt 2010));
     Datras (DatrasGetSurveyYearQuarterList sp_arsa (PyInt 2011))].
Proof.
  split; [split; reflexivity|].
  exact (proj1 (proj1 (one_call_per_combination_in_siblings
                         client datras sp_arsa (years 2010 2) (PyInt 1) true start
                         eq_refl)
                      eq_refl)).
Defined.

Lemma survey_list_makes_one_request_witness :
  datras_client client = Some datras /\
  requests (trace (snd (getSurveyList client start))) = [Datras DatrasGetSurveyList].
Proof.
  split; [reflexivity|].
  exact (proj1 (survey_list_makes_one_request client datras start eq_refl)).
Defined.

Lemma init_constructs_clients_independently_witness :
  datras_constructor "down" = Raise RemoteError /\
  datras_client
    (setDatrasClient datras_constructor
                     (init datras_constructor worms_constructor "up" "worms" 5) "down")
  = None.
Proof.
  split; [reflexivity|].
  exact (proj2 (proj2 (proj2 (proj2 (init_constructs_clients_independently
                                       datras_constructor worms_constructor
                                       "up" "worms" 5))))
               "down" RemoteError eq_refl).
Defined.

Lemma cleanup_is_idempotent_witness :
  let once := [[("Year", CStr "2010"); ("Quarter", CInt 1)];
               [("Year", CNone); ("Quarter", CInt 4)]] in
  (clean_strings mixed = Ok once /\ clean_strings once = Ok once) /\
  column once "Year" = [CStr "2010"; CNone].
Proof.
  split; [split; reflexivity|].
  exact (cleanup_is_idempotent mixed _ _ "Year" eq_refl eq_refl).
Defined.

Lemma cleanup_keeps_rows_and_plain_tables_witness :
  (forall c, In c (columns numbers) -> object_dtype (column numbers c) = false) /\
  clean_strings numbers = Ok numbers.
Proof.
  assert (Hplain : forall c, In c (columns numbers) ->
                             object_dtype (column numbers c) = false).
  { intros c Hc. apply mem_In in Hc.
    destruct (String.eqb c "Year") eqn:Ey;
      [apply String.eqb_eq in Ey; subst c; reflexivity|].
    destruct (String.eqb c "Quarter") eqn:Eq;
      [apply String.eqb_eq in Eq; subst c; reflexivity|].
    cbn in Hc. rewrite Ey, Eq in Hc. discriminate. }
  split; [exact Hplain|].
  exact (proj2 (cleanup_keeps_rows_and_plain_tables numbers) Hplain).
Defined.

Lemma survey_year_list_of_joined_lists_witness :
  datras_client client = Some datras /\
  trace (snd (getSurveyYearList client (PyList ([sp_arsa] ++ [PyStr "IBTS"])) start))
  = trace (snd (getSurveyYearList
                  client (PyList [PyStr "IBTS"])
                  (snd (getSurveyYearList client (PyList [sp_arsa]) start)))).
Proof.
  split; [reflexivity|].
  exact (proj1 (survey_year_list_of_joined_lists
                  client datras [sp_arsa] [PyStr "IBTS"] start eq_refl)).
Defined.
